(** * A shallow embedding of [src/event-timer.c]

    The timer layer of the event machine: [event_timer_create],
    [event_timer_start], [event_timer_stop], [event_timer_destroy], the
    expiration handler [internal_timeout_handler] and the helper [shred].

    The C functions are written in a small state-and-failure monad over a
    [World]: the caller's [Event_timer] objects, the kernel's table of timer
    file descriptors, the reactor's registrations, [errno], and the log of
    the external calls made so far. *)

From Stdlib Require Import ZArith List Lia.
From stdpp Require Import base option gmap fin_maps list.

Local Open Scope Z_scope.

(** ** Pointers and constants *)

(** Data and function pointers are addresses; [NULL] is address zero, which
    is also what [memset (p, 0, n)] writes into a pointer field. *)
Abbreviation ptr := Z (only parsing).
Definition NULL : ptr := 0.

(** A pointer to an [Event_descriptor].  The only descriptors of this file
    are the ones embedded in an [Event_timer], so such a pointer is either
    null or [&timer->event_descriptor]; the offset inside the structure is
    left out. *)
Inductive ed_ptr : Type :=
| ED_NULL
| ED_of (timer : ptr).

(** A function pointer: null, the address of the static function
    [internal_timeout_handler], or the address of a function of the
    application. *)
Inductive fn_ptr : Type :=
| FN_NULL
| FN_internal_timeout_handler
| FN_user (addr : Z).

#[global] Instance ed_ptr_eq_dec : EqDecision ed_ptr.
Proof. solve_decision. Defined.
#[global] Instance fn_ptr_eq_dec : EqDecision fn_ptr.
Proof. solve_decision. Defined.

(** Linux values of the system constants the file uses. *)
Definition CLOCK_MONOTONIC : Z := 1.
Definition TFD_CLOEXEC : Z := 524288.
Definition TFD_NONBLOCK : Z := 2048.
Definition EPOLLIN : Z := 1.
Definition EBADF : Z := 9.
Definition EAGAIN : Z := 11.
Definition EINVAL : Z := 22.
Definition EMFILE : Z := 24.
Definition ENOENT : Z := 2.
Definition sizeof_uint64_t : Z := 8.

(** Modelled from the spec: the result codes of [event-machine/result.h],
    which is not part of the sources at hand.  The names used by
    [event-timer.c] are kept; [EM_ERROR_REGISTER] and [EM_ERROR_UNREGISTER]
    stand for the reactor's own failures to add and to remove a descriptor
    (section 6 of the specification: "unregister-failed"). *)
Inductive em_status : Type :=
| EM_SUCCESS
| EM_ERROR_NULL
| EM_ERROR_DESCRIPTOR_NULL
| EM_ERROR_TIMER_NULL
| EM_ERROR_CALLBACK_NULL
| EM_ERROR_BADFD
| EM_ERROR_TIMERFD_SETTIME
| EM_ERROR_CLOSE
| EM_ERROR_REGISTER
| EM_ERROR_UNREGISTER.

#[global] Instance em_status_eq_dec : EqDecision em_status.
Proof. solve_decision. Defined.

(** ** The data model *)

(** [struct timespec] and [struct itimerspec]. *)
Record timespec : Type := { tv_sec : Z; tv_nsec : Z }.
Record itimerspec : Type := { it_interval : timespec; it_value : timespec }.

#[global] Instance timespec_eq_dec : EqDecision timespec.
Proof. solve_decision. Defined.
#[global] Instance itimerspec_eq_dec : EqDecision itimerspec.
Proof. solve_decision. Defined.

(** [Event_descriptor]: the fields [fd], [events], [data] and [handler]
    that [event_timer_create] fills in. *)
Record Event_descriptor : Type := {
  ed_fd : Z;
  ed_events : Z;
  ed_data : ptr;
  ed_handler : fn_ptr
}.

(** [Event_timer]: reached in the source through the accessor macros
    [TIMER_EM], [TIMER_ED], [TIMER_FD], [TIMER_DATA], [TIMER_CALLBACK]. *)
Record Event_timer : Type := {
  event_machine : ptr;
  event_descriptor : Event_descriptor;
  data : ptr;
  callback : fn_ptr
}.

Definition TIMER_EM (t : Event_timer) : ptr := event_machine t.
Definition TIMER_ED (t : Event_timer) : Event_descriptor := event_descriptor t.
Definition TIMER_FD (t : Event_timer) : Z := ed_fd (event_descriptor t).
Definition TIMER_DATA (t : Event_timer) : ptr := data t.
Definition TIMER_CALLBACK (t : Event_timer) : fn_ptr := callback t.

(** Assignments through the accessor macros. *)
Definition set_TIMER_EM (v : ptr) (t : Event_timer) : Event_timer :=
  {| event_machine := v; event_descriptor := event_descriptor t;
     data := data t; callback := callback t |}.
Definition set_TIMER_DATA (v : ptr) (t : Event_timer) : Event_timer :=
  {| event_machine := event_machine t; event_descriptor := event_descriptor t;
     data := v; callback := callback t |}.
Definition set_TIMER_CALLBACK (v : fn_ptr) (t : Event_timer) : Event_timer :=
  {| event_machine := event_machine t; event_descriptor := event_descriptor t;
     data := data t; callback := v |}.
Definition set_TIMER_ED (d : Event_descriptor) (t : Event_timer) : Event_timer :=
  {| event_machine := event_machine t; event_descriptor := d;
     data := data t; callback := callback t |}.
Definition set_ed_fd (v : Z) (d : Event_descriptor) : Event_descriptor :=
  {| ed_fd := v; ed_events := ed_events d; ed_data := ed_data d;
     ed_handler := ed_handler d |}.
Definition set_ed_events (v : Z) (d : Event_descriptor) : Event_descriptor :=
  {| ed_fd := ed_fd d; ed_events := v; ed_data := ed_data d;
     ed_handler := ed_handler d |}.
Definition set_ed_data (v : ptr) (d : Event_descriptor) : Event_descriptor :=
  {| ed_fd := ed_fd d; ed_events := ed_events d; ed_data := v;
     ed_handler := ed_handler d |}.
Definition set_ed_handler (v : fn_ptr) (d : Event_descriptor) : Event_descriptor :=
  {| ed_fd := ed_fd d; ed_events := ed_events d; ed_data := ed_data d;
     ed_handler := v |}.

(** ** The world outside the file *)

(** A kernel timer: its current setting and the number of expirations not
    yet read. *)
Record timerfd : Type := {
  tfd_setting : itimerspec;
  tfd_expirations : Z
}.

(** One entry of the log: an external call with its arguments and result,
    or an invocation of a user callback. *)
Inductive event : Type :=
| Ev_timerfd_create (clockid flags : Z) (res : Z)
| Ev_timerfd_settime (fd flags : Z) (new_value : itimerspec) (res : Z)
| Ev_read (fd : Z) (res : Z)
| Ev_close (fd : Z) (res : Z)
| Ev_add (em : ptr) (ed : ed_ptr) (res : em_status)
| Ev_delete (em : ptr) (fd : Z) (res : em_status)
| Ev_callback (f : fn_ptr) (timer : ptr) (user_data : ptr).

(** - [heap]: the [Event_timer] objects of the caller, by address;
    - [fds]: the open kernel timers, by file descriptor;
    - [registered]: the reactor's descriptors, by file descriptor, each
      with the reactor it belongs to;
    - [errno];
    - [faults]: what the environment does to the next calls that can fail
      for reasons outside this model (descriptor exhaustion, an interrupted
      [close], a failing [epoll_ctl] inside the reactor): [Some e] makes
      the call fail with [errno = e], [None] lets it through;
    - [trace]: the log, oldest entry first. *)
Record World : Type := {
  heap : gmap Z Event_timer;
  fds : gmap Z timerfd;
  registered : gmap Z (ptr * ed_ptr);
  errno : Z;
  faults : list (option Z);
  trace : list event
}.

Definition set_heap (h : gmap Z Event_timer) (w : World) : World :=
  {| heap := h; fds := fds w; registered := registered w; errno := errno w;
     faults := faults w; trace := trace w |}.
Definition set_fds (k : gmap Z timerfd) (w : World) : World :=
  {| heap := heap w; fds := k; registered := registered w; errno := errno w;
     faults := faults w; trace := trace w |}.
Definition set_registered (r : gmap Z (ptr * ed_ptr)) (w : World) : World :=
  {| heap := heap w; fds := fds w; registered := r; errno := errno w;
     faults := faults w; trace := trace w |}.
Definition set_errno (e : Z) (w : World) : World :=
  {| heap := heap w; fds := fds w; registered := registered w; errno := e;
     faults := faults w; trace := trace w |}.
Definition set_faults (f : list (option Z)) (w : World) : World :=
  {| heap := heap w; fds := fds w; registered := registered w; errno := errno w;
     faults := f; trace := trace w |}.
Definition log (e : event) (w : World) : World :=
  {| heap := heap w; fds := fds w; registered := registered w; errno := errno w;
     faults := faults w; trace := trace w ++ [e] |}.

(** ** The monad *)

(** A C function either returns ([Done]), stops in a failed [assert]
    ([Abort]), or has no defined behaviour ([Undefined]: a dereference of a
    pointer that is not an [Event_timer], a call through a pointer that is
    not a function). *)
Inductive outcome (A : Type) : Type :=
| Done (a : A) (w : World)
| Abort (w : World)
| Undefined.
Arguments Done {A} a w.
Arguments Abort {A} w.
Arguments Undefined {A}.

Definition M (A : Type) : Type := World -> outcome A.

#[global] Instance M_ret : MRet M := fun A a w => Done a w.
#[global] Instance M_bind : MBind M := fun A B f m w =>
  match m w with
  | Done a w' => f a w'
  | Abort w' => Abort w'
  | Undefined => Undefined
  end.

Definition get_world : M World := fun w => Done w w.
Definition modify (f : World -> World) : M unit := fun w => Done tt (f w).
Definition undefined {A} : M A := fun _ => Undefined.

(** [assert (b)] of <assert.h>. *)
Definition assert (b : bool) : M unit :=
  fun w => if b then Done tt w else Abort w.

(** Reading and writing [errno]. *)
Definition get_errno : M Z := fun w => Done (errno w) w.
Definition put_errno (e : Z) : M unit := modify (set_errno e).

(** Reading [*timer] and assigning to it. *)
Definition load (timer : ptr) : M Event_timer := fun w =>
  match heap w !! timer with
  | Some t => Done t w
  | None => Undefined
  end.
Definition store (timer : ptr) (t : Event_timer) : M unit :=
  modify (fun w => set_heap (<[timer := t]> (heap w)) w).
Definition update (timer : ptr) (f : Event_timer -> Event_timer) : M unit :=
  t ← load timer; store timer (f t).

(** The next decision of the environment. *)
Definition next_fault : M (option Z) := fun w =>
  match faults w with
  | [] => Done None w
  | f :: rest => Done f (set_faults rest w)
  end.

(** ** The kernel: timerfd_create(2), timerfd_settime(2), read(2), close(2) *)

(** The timer behind a descriptor; negative numbers are never descriptors. *)
Definition kernel_timer (fd : Z) (w : World) : option timerfd :=
  if fd <? 0 then None else fds w !! fd.

(** The lowest descriptor from [n] on that is not open, looking at [fuel]
    candidates. *)
Fixpoint lowest_free (k : gmap Z timerfd) (fuel : nat) (n : Z) : option Z :=
  match fuel with
  | O => None
  | S fuel' =>
      match k !! n with
      | None => Some n
      | Some _ => lowest_free k fuel' (n + 1)
      end
  end.

Definition zero_timespec : timespec := {| tv_sec := 0; tv_nsec := 0 |}.
Definition zero_itimerspec : itimerspec :=
  {| it_interval := zero_timespec; it_value := zero_timespec |}.
Definition new_timerfd : timerfd :=
  {| tfd_setting := zero_itimerspec; tfd_expirations := 0 |}.

(** [timerfd_create (clockid, flags)]: a new, disarmed timer on the lowest
    free descriptor, or [-1] when the environment refuses one. *)
Definition timerfd_create (clockid flags : Z) : M Z :=
  f ← next_fault;
  w ← get_world;
  match f, lowest_free (fds w) (S (size (fds w))) 0 with
  | Some e, _ =>
      put_errno e;;
      modify (log (Ev_timerfd_create clockid flags (-1)));;
      mret (-1)
  | None, None =>
      put_errno EMFILE;;
      modify (log (Ev_timerfd_create clockid flags (-1)));;
      mret (-1)
  | None, Some fd =>
      modify (set_fds (<[fd := new_timerfd]> (fds w)));;
      modify (log (Ev_timerfd_create clockid flags fd));;
      mret fd
  end.

(** The kernel's check of a [timespec]: seconds not negative, nanoseconds
    within one second. *)
Definition timespec_valid (ts : timespec) : bool :=
  (0 <=? tv_sec ts) && (0 <=? tv_nsec ts) && (tv_nsec ts <? 1000000000).
Definition itimerspec_valid (its : itimerspec) : bool :=
  timespec_valid (it_interval its) && timespec_valid (it_value its).

(** [timerfd_settime (fd, flags, &new_value, NULL)]: [EINVAL] for unknown
    flags or an invalid [new_value], [EBADF] for a descriptor that is not
    open; otherwise the timer takes the new setting and its count of unread
    expirations starts again from zero. *)
Definition timerfd_settime (fd flags : Z) (new_value : itimerspec) : M Z :=
  w ← get_world;
  if negb (Z.land flags (Z.lnot 3) =? 0) || negb (itimerspec_valid new_value)
  then
    put_errno EINVAL;;
    modify (log (Ev_timerfd_settime fd flags new_value (-1)));;
    mret (-1)
  else
    match kernel_timer fd w with
    | None =>
        put_errno EBADF;;
        modify (log (Ev_timerfd_settime fd flags new_value (-1)));;
        mret (-1)
    | Some _ =>
        modify (set_fds (<[fd := {| tfd_setting := new_value;
                                    tfd_expirations := 0 |}]> (fds w)));;
        modify (log (Ev_timerfd_settime fd flags new_value 0));;
        mret 0
    end.

(** [read (fd, &number_of_timeouts, sizeof (uint64_t))] on a non-blocking
    timer descriptor: the count of expirations since the last read, which
    then restarts from zero; [EAGAIN] when there is none.  The second
    component is what the call stored through the pointer, if anything. *)
Definition read_uint64 (fd : Z) : M (Z * option Z) :=
  w ← get_world;
  match kernel_timer fd w with
  | None =>
      put_errno EBADF;;
      modify (log (Ev_read fd (-1)));;
      mret (-1, None)
  | Some t =>
      if tfd_expirations t <=? 0 then
        put_errno EAGAIN;;
        modify (log (Ev_read fd (-1)));;
        mret (-1, None)
      else
        modify (set_fds (<[fd := {| tfd_setting := tfd_setting t;
                                    tfd_expirations := 0 |}]> (fds w)));;
        modify (log (Ev_read fd sizeof_uint64_t));;
        mret (sizeof_uint64_t, Some (tfd_expirations t))
  end.

(** [close (fd)]: [EBADF] for a descriptor that is not open.  An open
    descriptor is released in every case, also when the call reports an
    error (Linux frees the descriptor before anything can fail). *)
Definition close (fd : Z) : M Z :=
  w ← get_world;
  match kernel_timer fd w with
  | None =>
      put_errno EBADF;;
      modify (log (Ev_close fd (-1)));;
      mret (-1)
  | Some _ =>
      modify (set_fds (delete fd (fds w)));;
      f ← next_fault;
      match f with
      | Some e =>
          put_errno e;;
          modify (log (Ev_close fd (-1)));;
          mret (-1)
      | None =>
          modify (log (Ev_close fd 0));;
          mret 0
      end
  end.

(** ** The reactor *)

(** Modelled from the spec: [event_machine_add], whose definition is in
    [event-machine.c], not among the sources at hand.  Section 6:
    "register(descriptor) -> status: adds a descriptor to the readiness
    set; must reject null reactor/descriptor distinctly".  A registration
    the environment refuses sets [errno] and reports
    [EM_ERROR_REGISTER]. *)
Definition event_machine_add (em : ptr) (ed : ed_ptr) : M em_status :=
  r ← (if decide (em = NULL) then mret EM_ERROR_NULL
       else match ed with
            | ED_NULL => mret EM_ERROR_DESCRIPTOR_NULL
            | ED_of timer =>
                t ← load timer;
                f ← next_fault;
                match f with
                | Some e => put_errno e;; mret EM_ERROR_REGISTER
                | None =>
                    w ← get_world;
                    modify (set_registered
                              (<[TIMER_FD t := (em, ed)]> (registered w)));;
                    mret EM_SUCCESS
                end
            end);
  modify (log (Ev_add em ed r));;
  mret r.

(** Modelled from the spec: [event_machine_delete], likewise missing.
    Section 6: "unregister(reactor, handle, out_descriptor?) -> status:
    removes a descriptor by handle".  The third argument is [NULL] at the
    only call of this file and is left out.  A null reactor is reported
    with [EM_ERROR_NULL], the status the assertion after the call in
    [event_timer_destroy] names; a handle the reactor does not hold, or a
    removal the environment refuses, sets [errno] and reports
    [EM_ERROR_UNREGISTER]. *)
Definition event_machine_delete (em : ptr) (fd : Z) : M em_status :=
  r ← (if decide (em = NULL) then mret EM_ERROR_NULL
       else
         w ← get_world;
         match registered w !! fd with
         | Some (em', _) =>
             if decide (em' = em) then
               f ← next_fault;
               match f with
               | Some e => put_errno e;; mret EM_ERROR_UNREGISTER
               | None =>
                   modify (set_registered (delete fd (registered w)));;
                   mret EM_SUCCESS
               end
             else put_errno ENOENT;; mret EM_ERROR_UNREGISTER
         | None => put_errno ENOENT;; mret EM_ERROR_UNREGISTER
         end);
  modify (log (Ev_delete em fd r));;
  mret r.

(** ** The macros of [event-machine/result-internal.h] *)

(** Modelled from the spec: [if_null (p)], the test [p == NULL] ("each
    null argument ... reported"); here on data pointers. *)
Definition is_null (p : ptr) : bool := bool_decide (p = NULL).

(** Modelled from the spec: [if_null] on a function pointer. *)
Definition is_null_fn (f : fn_ptr) : bool := bool_decide (f = FN_NULL).

(** Modelled from the spec: [valid_fd (fd)]; a handle is valid when it is
    not negative, the "invalid sentinel" being [-1]. *)
Definition valid_fd (fd : Z) : bool := 0 <=? fd.

(** Modelled from the spec: [if_invalid_fd (fd)], the negation of
    [valid_fd]. *)
Definition is_invalid_fd (fd : Z) : bool := negb (valid_fd fd).

(** Modelled from the spec: [if_negative (x)], the test [x < 0] on the
    result of a system call. *)
Definition is_negative (x : Z) : bool := x <? 0.

(** Modelled from the spec: [if_em_failure (ret)], the test
    [ret != EM_SUCCESS]. *)
Definition is_em_failure (r : em_status) : bool :=
  negb (bool_decide (r = EM_SUCCESS)).

(** ** The functions of [event-timer.c] *)

(** What [memset (timer, 0, sizeof (Event_timer))] leaves in [*timer]. *)
Definition zero_descriptor : Event_descriptor :=
  {| ed_fd := 0; ed_events := 0; ed_data := NULL; ed_handler := FN_NULL |}.
Definition zero_timer : Event_timer :=
  {| event_machine := NULL; event_descriptor := zero_descriptor;
     data := NULL; callback := FN_NULL |}.

Definition memset_zero (timer : ptr) : M unit :=
  _ ← load timer; store timer zero_timer.

(** [static void shred (Event_timer *const timer)] *)
Definition shred (timer : ptr) : M unit :=
  memset_zero timer;;
  (* TIMER_FD(timer) = -1; *)
  update timer (fun t => set_TIMER_ED (set_ed_fd (-1) (TIMER_ED t)) t);;
  (* TIMER_ED(timer).fd = -1; *)
  update timer (fun t => set_TIMER_ED (set_ed_fd (-1) (TIMER_ED t)) t).

(** [uint32_t event_timer_create (EM *const event_machine,
      Event_timer *const timer, const Event_timer_handler callback,
      void *const data)] *)
Definition event_timer_create (event_machine : ptr) (timer : ptr)
    (callback : fn_ptr) (data : ptr) : M em_status :=
  if is_null event_machine then mret EM_ERROR_NULL
  else if is_null timer then mret EM_ERROR_TIMER_NULL
  else if is_null_fn callback then mret EM_ERROR_CALLBACK_NULL
  else
    update timer (set_TIMER_EM event_machine);;
    update timer (set_TIMER_DATA data);;
    update timer (set_TIMER_CALLBACK callback);;
    fd ← timerfd_create CLOCK_MONOTONIC (Z.lor TFD_CLOEXEC TFD_NONBLOCK);
    if is_invalid_fd fd then mret EM_ERROR_BADFD
    else
      update timer (fun t => set_TIMER_ED (set_ed_fd fd (TIMER_ED t)) t);;
      update timer (fun t => set_TIMER_ED (set_ed_events EPOLLIN (TIMER_ED t)) t);;
      update timer (fun t => set_TIMER_ED (set_ed_data timer (TIMER_ED t)) t);;
      update timer (fun t =>
        set_TIMER_ED (set_ed_handler FN_internal_timeout_handler (TIMER_ED t)) t);;
      ret ← event_machine_add event_machine (ED_of timer);
      if is_em_failure ret then
        saved_errno ← get_errno;
        assert (negb (bool_decide (ret = EM_ERROR_NULL)));;
        assert (negb (bool_decide (ret = EM_ERROR_DESCRIPTOR_NULL)));;
        _ ← close fd;
        shred timer;;
        put_errno saved_errno;;
        mret ret
      else mret ret.

(** The C quotient and remainder truncate towards zero: [Z.quot] and
    [Z.rem].  For an [int32_t] [msec] neither [msec / 1000] nor
    [(msec % 1000) * 1000] leaves the range of [int]. *)
Definition expiration_time (msec : Z) : timespec :=
  {| tv_sec := Z.quot msec 1000;
     tv_nsec := Z.rem msec 1000 * 1000 |}.

(** [uint32_t event_timer_start (Event_timer *const timer,
      const int32_t msec)] *)
Definition event_timer_start (timer : ptr) (msec : Z) : M em_status :=
  if is_null timer then mret EM_ERROR_TIMER_NULL
  else
    let expiration :=
      {| it_interval := expiration_time msec;
         it_value := expiration_time msec |} in
    t ← load timer;
    r ← timerfd_settime (TIMER_FD t) 0 expiration;
    if is_negative r then mret EM_ERROR_TIMERFD_SETTIME
    else mret EM_SUCCESS.

(** [uint32_t event_timer_stop (Event_timer *const timer)] *)
Definition event_timer_stop (timer : ptr) : M em_status :=
  let expiration :=
    {| it_interval := {| tv_sec := 0; tv_nsec := 0 |};
       it_value := {| tv_sec := 0; tv_nsec := 0 |} |} in
  if is_null timer then mret EM_ERROR_TIMER_NULL
  else
    t ← load timer;
    r ← timerfd_settime (TIMER_FD t) 0 expiration;
    if is_negative r then mret EM_ERROR_TIMERFD_SETTIME
    else mret EM_SUCCESS.

(** [uint32_t event_timer_destroy (Event_timer *const timer)] *)
Definition event_timer_destroy (timer : ptr) : M em_status :=
  if is_null timer then mret EM_ERROR_TIMER_NULL
  else
    t ← load timer;
    ret ← event_machine_delete (TIMER_EM t) (TIMER_FD t);
    if is_em_failure ret then
      saved_errno ← get_errno;
      assert (negb (bool_decide (ret = EM_ERROR_NULL)));;
      assert (negb (bool_decide (ret = EM_ERROR_DESCRIPTOR_NULL)));;
      t ← load timer;
      _ ← close (TIMER_FD t);
      put_errno saved_errno;;
      mret ret
    else
      t ← load timer;
      r ← close (TIMER_FD t);
      if is_negative r then mret EM_ERROR_CLOSE
      else
        shred timer;;
        mret EM_SUCCESS.

Section Dispatch.

(** The functions of the application that a timer can call back: the body
    behind an address, as a function of the two arguments
    [(Event_timer *timer, void *data)]. *)
Variable user_code : Z -> option (ptr -> ptr -> M unit).

(** A call through a function pointer of type [Event_timer_handler]. *)
Definition call_handler (f : fn_ptr) (timer : ptr) (user_data : ptr) : M unit :=
  match f with
  | FN_user a =>
      match user_code a with
      | Some body =>
          modify (log (Ev_callback f timer user_data));;
          body timer user_data
      | None => undefined
      end
  | _ => undefined
  end.

(** The loop [for (; number_of_timeouts > 0; number_of_timeouts--)],
    by the number of iterations left. *)
Fixpoint timeout_loop (number_of_timeouts : nat) (data : ptr) : M unit :=
  match number_of_timeouts with
  | O => mret tt
  | S n =>
      (* Event_timer *timer = CAST_TIMER(data); *)
      let timer := data in
      t ← load timer;
      call_handler (TIMER_CALLBACK t) timer (TIMER_DATA t);;
      timeout_loop n data
  end.

(** [static void internal_timeout_handler (EM *const em,
      const uint32_t events, const int fd, void *const data)] *)
Definition internal_timeout_handler (em : ptr) (events : Z) (fd : Z)
    (data : ptr) : M unit :=
  assert (negb (is_null em));;
  assert (valid_fd fd);;
  '(readed, number_of_timeouts) ← read_uint64 fd;
  e ← get_errno;
  if negb (readed =? sizeof_uint64_t) && (e =? EAGAIN) then mret tt
  else
    assert (readed =? sizeof_uint64_t);;
    match number_of_timeouts with
    | Some n => timeout_loop (Z.to_nat n) data
    | None => undefined
    end.

End Dispatch.

(** ** The states of a timer *)

(** What [shred] leaves behind: everything zero, the handle [-1]. *)
Definition destroyed_timer : Event_timer :=
  {| event_machine := NULL;
     event_descriptor :=
       {| ed_fd := -1; ed_events := 0; ed_data := NULL; ed_handler := FN_NULL |};
     data := NULL;
     callback := FN_NULL |}.

(** [timer] is a created timer with contents [t]: the object is there, its
    reactor and callback are not null, its descriptor points back at it and
    at the internal handler, its handle is an open kernel timer, and the
    reactor holds its descriptor. *)
Definition created (w : World) (timer : ptr) (t : Event_timer) : Prop :=
  timer ≠ NULL ∧
  heap w !! timer = Some t ∧
  TIMER_EM t ≠ NULL ∧
  TIMER_CALLBACK t ≠ FN_NULL ∧
  ed_events (TIMER_ED t) = EPOLLIN ∧
  ed_data (TIMER_ED t) = timer ∧
  ed_handler (TIMER_ED t) = FN_internal_timeout_handler ∧
  is_Some (kernel_timer (TIMER_FD t) w) ∧
  registered w !! TIMER_FD t = Some (TIMER_EM t, ED_of timer).

(** [timer] is in the destroyed state. *)
Definition destroyed (w : World) (timer : ptr) : Prop :=
  timer ≠ NULL ∧ heap w !! timer = Some destroyed_timer.

(** The invocations of user callbacks in a log, in order. *)
Definition is_callback (e : event) : bool :=
  match e with
  | Ev_callback _ _ _ => true
  | _ => false
  end.
Definition callbacks_of (l : list event) : list event := List.filter is_callback l.

(** The timer at [timer] still has the callback [f] and the user data
    [user_data]. *)
Definition intact (timer : ptr) (f : fn_ptr) (user_data : ptr) (w : World) : Prop :=
  ∃ t, heap w !! timer = Some t ∧ TIMER_CALLBACK t = f ∧ TIMER_DATA t = user_data.

(** A kernel timer that is not armed and has nothing to read. *)
Definition stopped_timerfd : timerfd :=
  {| tfd_setting := zero_itimerspec; tfd_expirations := 0 |}.

(** ** A concrete scenario

    One reactor at address 16, one [Event_timer] object at address 4096,
    a user callback at address 1 and the user data pointer 7. *)

(** The caller's storage before [event_timer_create]: left over from
    earlier use. *)
Definition stale_timer : Event_timer :=
  {| event_machine := 99;
     event_descriptor :=
       {| ed_fd := 5; ed_events := 3; ed_data := 1; ed_handler := FN_user 9 |};
     data := 55;
     callback := FN_user 8 |}.

Definition w_fresh : World :=
  {| heap := {[ 4096 := stale_timer ]}; fds := ∅; registered := ∅;
     errno := 0; faults := []; trace := [] |}.

Definition created_timer : Event_timer :=
  {| event_machine := 16;
     event_descriptor :=
       {| ed_fd := 0; ed_events := EPOLLIN; ed_data := 4096;
          ed_handler := FN_internal_timeout_handler |};
     data := 7;
     callback := FN_user 1 |}.

(** The world after [event_timer_create (16, 4096, 1, 7)] succeeded in
    [w_fresh]. *)
Definition w_created : World :=
  {| heap := {[ 4096 := created_timer ]};
     fds := {[ 0 := new_timerfd ]};
     registered := {[ 0 := (16, ED_of 4096) ]};
     errno := 0; faults := [];
     trace := [Ev_timerfd_create CLOCK_MONOTONIC (Z.lor TFD_CLOEXEC TFD_NONBLOCK) 0;
               Ev_add 16 (ED_of 4096) EM_SUCCESS] |}.

(** The world after [event_timer_destroy (4096)] succeeded in
    [w_created]. *)
Definition w_destroyed : World :=
  {| heap := {[ 4096 := destroyed_timer ]}; fds := ∅; registered := ∅;
     errno := 0; faults := [];
     trace := trace w_created ++ [Ev_delete 16 0 EM_SUCCESS; Ev_close 0 0] |}.

(** [w_created] with the timer armed and [n] expirations waiting to be
    read. *)
Definition w_pending (n : Z) : World :=
  set_fds {[ 0 := {| tfd_setting :=
                       {| it_interval := {| tv_sec := 0; tv_nsec := 50000 |};
                          it_value := {| tv_sec := 0; tv_nsec := 50000 |} |};
                     tfd_expirations := n |} ]} w_created.

(** An application whose callback at address 1 destroys the timer it is
    called for. *)
Definition code_destroy (a : Z) : option (ptr → ptr → M unit) :=
  if decide (a = 1)
  then Some (fun timer _ => _ ← event_timer_destroy timer; mret tt)
  else None.

(** An application whose callback at address 1 re-arms the timer it is
    called for with a period of 10 milliseconds. *)
Definition code_restart (a : Z) : option (ptr → ptr → M unit) :=
  if decide (a = 1)
  then Some (fun timer _ => _ ← event_timer_start timer 10; mret tt)
  else None.

(** ** Further notions for the properties *)

(** What a successful [event_timer_create] leaves in [*timer]. *)
Definition initialised_timer (event_machine timer : ptr) (callback : fn_ptr)
    (data : ptr) (fd : Z) : Event_timer :=
  {| event_machine := event_machine;
     event_descriptor :=
       {| ed_fd := fd; ed_events := EPOLLIN; ed_data := timer;
          ed_handler := FN_internal_timeout_handler |};
     data := data;
     callback := callback |}.

(** The environment lets the next [n] calls through. *)
Definition no_fault (n : nat) (w : World) : Prop :=
  take n (faults w) = replicate (length (take n (faults w))) None.

(** The world an outcome ends in ([w0] when there is none). *)
Definition world_after {A} (o : outcome A) (w0 : World) : World :=
  match o with
  | Done _ w => w
  | Abort w => w
  | Undefined => w0
  end.

(** The world in which the handler goes on after its [read] on [fd]. *)
Definition after_read (fd : Z) (w : World) : World :=
  world_after (read_uint64 fd w) w.

(** Starting in [w], the function [body] is called [n] times in a row with
    the arguments [(timer, user_data)], each call entered in the log as a
    call through [f] before it begins and each call returning before the
    next begins; the last one returns in [w']. *)
Inductive invocations (body : ptr → ptr → M unit) (f : fn_ptr)
    (timer user_data : ptr) : nat → World → World → Prop :=
| invocations_none (w : World) :
    invocations body f timer user_data O w w
| invocations_call (n : nat) (w w1 w' : World) :
    body timer user_data (log (Ev_callback f timer user_data) w) = Done tt w1 →
    invocations body f timer user_data n w1 w' →
    invocations body f timer user_data (S n) w w'.

(** Each of the [n] calls of [body] that start in [w], one after another,
    returns and leaves the callback [FN_user a] and the user data
    [user_data] of the timer at [timer] in place. *)
Fixpoint each_call_keeps (body : ptr → ptr → M unit) (a : Z)
    (timer user_data : ptr) (n : nat) (w : World) : Prop :=
  match n with
  | O => True
  | S k =>
      ∃ w1,
        body timer user_data
          (log (Ev_callback (FN_user a) timer user_data) w) = Done tt w1 ∧
        intact timer (FN_user a) user_data w1 ∧
        each_call_keeps body a timer user_data k w1
  end.

(** * Properties *)

(** ** The monad and the primitives *)

Ltac munfold :=
  unfold update, load, store, put_errno, get_errno, get_world, next_fault,
    assert, undefined, modify in *;
  unfold mbind, M_bind, mret, M_ret in *;
  cbv beta in *.

Lemma bind_Done {A B} (m : M A) (f : A → M B) (w : World) a w' :
  m w = Done a w' → (m ≫= f) w = f a w'.
Proof. intros H. unfold mbind, M_bind. by rewrite H. Qed.

Lemma load_Done (timer : ptr) (t : Event_timer) (w : World) :
  heap w !! timer = Some t → load timer w = Done t w.
Proof. intros H. unfold load. by rewrite H. Qed.

Lemma update_Done (timer : ptr) (f : Event_timer → Event_timer)
    (t : Event_timer) (w : World) :
  heap w !! timer = Some t →
  update timer f w = Done tt (set_heap (<[timer := f t]> (heap w)) w).
Proof. intros H. munfold. by rewrite H. Qed.

Lemma is_null_false (p : ptr) : p ≠ NULL → is_null p = false.
Proof. intros H. unfold is_null. by apply bool_decide_eq_false. Qed.

Lemma is_null_fn_false (f : fn_ptr) : f ≠ FN_NULL → is_null_fn f = false.
Proof. intros H. unfold is_null_fn. by apply bool_decide_eq_false. Qed.

(** The search for a descriptor finds one that is free and not negative. *)
Lemma lowest_free_Some (k : gmap Z timerfd) (fuel : nat) (n fd : Z) :
  lowest_free k fuel n = Some fd → n ≤ fd ∧ k !! fd = None.
Proof.
  revert n. induction fuel as [|fuel IH]; intros n; simpl; [done|].
  destruct (k !! n) eqn:E.
  - intros H. apply IH in H. destruct H. split; [lia | done].
  - intros [= <-]. split; [lia | done].
Qed.

Lemma lowest_free_None (k : gmap Z timerfd) (fuel : nat) (n : Z) :
  lowest_free k fuel n = None →
  ∀ i, n ≤ i < n + Z.of_nat fuel → is_Some (k !! i).
Proof.
  revert n. induction fuel as [|fuel IH]; intros n; simpl.
  - intros _ i Hi. lia.
  - destruct (k !! n) eqn:E; [|done].
    intros H i Hi. destruct (decide (i = n)) as [->|Hne].
    + by rewrite E.
    + apply (IH (n + 1) H). lia.
Qed.

(** With one candidate more than there are open descriptors the search
    cannot come back empty. *)
Lemma lowest_free_total (k : gmap Z timerfd) :
  ∃ fd, lowest_free k (S (size k)) 0 = Some fd.
Proof.
  destruct (lowest_free k (S (size k)) 0) as [fd|] eqn:E; [by exists fd|].
  exfalso.
  pose proof (lowest_free_None _ _ _ E) as Hall.
  assert (Hsub : (list_to_set (seqZ 0 (Z.of_nat (S (size k)))) : gset Z) ⊆ dom k).
  { intros i Hi. apply elem_of_list_to_set in Hi.
    apply elem_of_seqZ in Hi. apply elem_of_dom. apply Hall. lia. }
  apply subseteq_size in Hsub.
  rewrite size_list_to_set in Hsub by apply NoDup_seqZ.
  rewrite length_seqZ, size_dom in Hsub. lia.
Qed.

(** [close] always returns, leaves the objects and the registrations
    alone, and leaves the descriptor closed. *)
Lemma close_spec (fd : Z) (w : World) :
  ∃ r w', close fd w = Done r w' ∧
    heap w' = heap w ∧ registered w' = registered w ∧
    kernel_timer fd w' = None ∧
    (∀ fd', fd' ≠ fd → fds w' !! fd' = fds w !! fd') ∧
    trace w' = trace w ++ [Ev_close fd r].
Proof.
  unfold close. munfold. simpl.
  destruct (kernel_timer fd w) eqn:E; simpl.
  - destruct (faults w) as [|[e|] rest]; simpl; eexists _, _;
      (split; [reflexivity|]); simpl;
      repeat split; try done; unfold kernel_timer in *; simpl;
      try (case_match; [done | by rewrite lookup_delete_eq]);
      intros; by rewrite lookup_delete_ne.
  - eexists _, _; (split; [reflexivity|]); simpl. repeat split; try done.
Qed.

(** [close] of a descriptor that is not open fails and releases nothing. *)
Lemma close_not_open (fd : Z) (w : World) :
  kernel_timer fd w = None →
  close fd w = Done (-1) (log (Ev_close fd (-1)) (set_errno EBADF w)).
Proof. intros H. unfold close. munfold. simpl. by rewrite H. Qed.

(** [event_machine_delete] always returns; it touches neither the objects
    nor the kernel timers, and with a reactor that is not null it reports
    success or [EM_ERROR_UNREGISTER]. *)
Lemma event_machine_delete_spec (em : ptr) (fd : Z) (w : World) :
  ∃ r w', event_machine_delete em fd w = Done r w' ∧
    heap w' = heap w ∧ fds w' = fds w ∧
    trace w' = trace w ++ [Ev_delete em fd r] ∧
    (em ≠ NULL → r = EM_SUCCESS ∨ r = EM_ERROR_UNREGISTER) ∧
    (em = NULL → r = EM_ERROR_NULL ∧ w' = log (Ev_delete em fd r) w).
Proof.
  unfold event_machine_delete. munfold. simpl.
  destruct (decide (em = NULL)) as [->|Hem]; simpl.
  - eexists _, _. split; [reflexivity|]. simpl. repeat split; try done.
  - destruct (registered w !! fd) as [[em' ed]|] eqn:E; simpl.
    + destruct (decide (em' = em)) as [Heq|Hneq]; simpl.
      * destruct (faults w) as [|[e|] rest]; simpl; eexists _, _;
          (split; [reflexivity|]); simpl; repeat split; try done; auto.
      * eexists _, _. split; [reflexivity|]. simpl. repeat split; try done; auto.
    + eexists _, _. split; [reflexivity|]. simpl. repeat split; try done; auto.
Qed.

(** [timerfd_settime] on something that is not an open timer fails and
    changes nothing but [errno] and the log. *)
Lemma timerfd_settime_not_open (fd flags : Z) (v : itimerspec) (w : World) :
  kernel_timer fd w = None →
  ∃ e, timerfd_settime fd flags v w =
       Done (-1) (log (Ev_timerfd_settime fd flags v (-1)) (set_errno e w)).
Proof.
  intros H. unfold timerfd_settime. munfold. simpl.
  destruct (negb (Z.land flags (Z.lnot 3) =? 0) || negb (itimerspec_valid v));
    simpl; [by eexists|]. rewrite H. simpl. by eexists.
Qed.

(** [timerfd_settime] with a valid setting on an open timer succeeds. *)
Lemma timerfd_settime_open (fd : Z) (v : itimerspec) (tf : timerfd) (w : World) :
  kernel_timer fd w = Some tf → itimerspec_valid v = true →
  timerfd_settime fd 0 v w =
    Done 0 (log (Ev_timerfd_settime fd 0 v 0)
              (set_fds (<[fd := {| tfd_setting := v; tfd_expirations := 0 |}]>
                          (fds w)) w)).
Proof.
  intros H Hv. unfold timerfd_settime. munfold. simpl.
  rewrite Hv. simpl. by rewrite H.
Qed.

(** [timerfd_settime] always returns, with [0] or [-1], and touches
    neither the objects nor the registrations. *)
Lemma timerfd_settime_frame (fd flags : Z) (v : itimerspec) (w : World) :
  ∃ r w', timerfd_settime fd flags v w = Done r w' ∧
    (r = 0 ∨ r = -1) ∧
    heap w' = heap w ∧ registered w' = registered w ∧
    trace w' = trace w ++ [Ev_timerfd_settime fd flags v r].
Proof.
  unfold timerfd_settime. munfold. simpl.
  destruct (negb (Z.land flags (Z.lnot 3) =? 0) || negb (itimerspec_valid v));
    simpl.
  - eexists _, _. split; [reflexivity|]. simpl. auto.
  - destruct (kernel_timer fd w); simpl; eexists _, _;
      (split; [reflexivity|]); simpl; auto.
Qed.

(** What [shred] does to an object that is there. *)
Lemma shred_Done (timer : ptr) (t : Event_timer) (w : World) :
  heap w !! timer = Some t →
  shred timer w = Done tt (set_heap (<[timer := destroyed_timer]> (heap w)) w).
Proof.
  intros H. unfold shred, memset_zero. munfold. rewrite H. simpl.
  rewrite !lookup_insert_eq. simpl. rewrite !lookup_insert_eq. simpl.
  unfold set_heap. simpl. by rewrite !insert_insert_eq.
Qed.

(** ** The scenario is what the code produces *)

Example create_in_w_fresh :
  event_timer_create 16 4096 (FN_user 1) 7 w_fresh = Done EM_SUCCESS w_created.
Proof. vm_compute. reflexivity. Qed.

Example w_created_is_created : created w_created 4096 created_timer.
Proof. unfold created. repeat split; done. Qed.

Example destroy_in_w_created :
  event_timer_destroy 4096 w_created = Done EM_SUCCESS w_destroyed.
Proof. vm_compute. reflexivity. Qed.

Example w_destroyed_is_destroyed : destroyed w_destroyed 4096.
Proof. split; done. Qed.

(** ** [event_timer_create]: the argument checks *)

(** C8: [event_timer_create] checks its arguments in the order reactor,
    timer, callback; a null reactor gives [EM_ERROR_NULL], otherwise a null
    timer gives [EM_ERROR_TIMER_NULL], otherwise a null callback gives
    [EM_ERROR_CALLBACK_NULL]; and in each of these cases the world after the
    call is the world before it: no descriptor allocated, nothing
    registered, no field of the timer written, no external call made. *)
Theorem create_null_argument (event_machine timer : ptr) (callback : fn_ptr)
    (data : ptr) (w : World) :
  event_machine = NULL ∨ timer = NULL ∨ callback = FN_NULL →
  ∃ s, event_timer_create event_machine timer callback data w = Done s w ∧
       (event_machine = NULL → s = EM_ERROR_NULL) ∧
       (event_machine ≠ NULL → timer = NULL → s = EM_ERROR_TIMER_NULL) ∧
       (event_machine ≠ NULL → timer ≠ NULL → s = EM_ERROR_CALLBACK_NULL) ∧
       s ≠ EM_SUCCESS.
Proof.
  intros Hnull. unfold event_timer_create, is_null, is_null_fn.
  destruct (decide (event_machine = NULL)) as [Hem|Hem].
  - rewrite (bool_decide_eq_true_2 _ Hem).
    exists EM_ERROR_NULL. repeat split; done.
  - rewrite (bool_decide_eq_false_2 _ Hem).
    destruct (decide (timer = NULL)) as [Ht|Ht].
    + rewrite (bool_decide_eq_true_2 _ Ht).
      exists EM_ERROR_TIMER_NULL. repeat split; done.
    + rewrite (bool_decide_eq_false_2 _ Ht).
      destruct Hnull as [?|[?|Hcb]]; [done..|].
      rewrite (bool_decide_eq_true_2 _ Hcb).
      exists EM_ERROR_CALLBACK_NULL. repeat split; done.
Qed.

Lemma create_null_argument_witness :
  ∃ s, event_timer_create 16 NULL FN_NULL 7 w_fresh = Done s w_fresh ∧
       (16 = NULL → s = EM_ERROR_NULL) ∧
       (16 ≠ NULL → NULL = NULL → s = EM_ERROR_TIMER_NULL) ∧
       (16 ≠ NULL → NULL ≠ NULL → s = EM_ERROR_CALLBACK_NULL) ∧
       s ≠ EM_SUCCESS.
Proof.
  apply (create_null_argument 16 NULL FN_NULL 7 w_fresh).
  right. left. reflexivity.
Defined.

(** ** [event_timer_stop] and [event_timer_start] *)

(** C10: for every timer pointer, null or not, and in every world,
    [event_timer_stop (timer)] and [event_timer_start (timer, 0)] have the
    same outcome: the same status and the same world afterwards, hence the
    same log of external calls; and the [itimerspec] that
    [event_timer_start] builds from 0 milliseconds is the all-zero one. *)
Theorem stop_is_start_zero (timer : ptr) (w : World) :
  event_timer_stop timer w = event_timer_start timer 0 w ∧
  {| it_interval := expiration_time 0; it_value := expiration_time 0 |}
    = zero_itimerspec.
Proof. split; reflexivity. Qed.

(** What [event_timer_start] asks of the kernel: one [timerfd_settime] on
    the timer's handle, with flags [0], interval and first expiry both
    [expiration_time msec]; the status follows the result of that call. *)
Lemma event_timer_start_call (timer : ptr) (msec : Z) (t : Event_timer)
    (w : World) :
  timer ≠ NULL → heap w !! timer = Some t →
  ∃ r w',
    timerfd_settime (TIMER_FD t) 0
      {| it_interval := expiration_time msec;
         it_value := expiration_time msec |} w = Done r w' ∧
    event_timer_start timer msec w =
      Done (if r <? 0 then EM_ERROR_TIMERFD_SETTIME else EM_SUCCESS) w' ∧
    heap w' = heap w ∧ registered w' = registered w ∧
    trace w' = trace w ++
      [Ev_timerfd_settime (TIMER_FD t) 0
         {| it_interval := expiration_time msec;
            it_value := expiration_time msec |} r].
Proof.
  intros Hn Ht.
  destruct (timerfd_settime_frame (TIMER_FD t) 0
              {| it_interval := expiration_time msec;
                 it_value := expiration_time msec |} w)
    as (r & w' & Hs & _ & Hh & Hr & Htr).
  exists r, w'. repeat split; try done.
  unfold event_timer_start. rewrite (is_null_false _ Hn).
  rewrite (bind_Done _ _ _ _ _ (load_Done _ _ _ Ht)).
  rewrite (bind_Done _ _ _ _ _ Hs).
  unfold is_negative. by destruct (r <? 0).
Qed.

(** C1: at [msec = 50] on the created timer of the scenario the call
    succeeds and the kernel timer is armed with interval and first expiry
    of 0 seconds and 50000 nanoseconds, that is 50 microseconds; the
    nanoseconds of 50 milliseconds would be 50 * 1000000. *)
Theorem start_50_msec_arms_50_usec :
  ∃ w', event_timer_start 4096 50 w_created = Done EM_SUCCESS w' ∧
        tfd_setting <$> fds w' !! 0 =
          Some {| it_interval := {| tv_sec := 0; tv_nsec := 50000 |};
                  it_value := {| tv_sec := 0; tv_nsec := 50000 |} |} ∧
        tv_nsec (expiration_time 50) = Z.rem 50 1000 * 1000 ∧
        tv_nsec (expiration_time 50) ≠ Z.rem 50 1000 * 1000000.
Proof.
  eexists. split; [vm_compute; reflexivity|].
  split; [vm_compute; reflexivity|]. split; [reflexivity|]. vm_compute. done.
Qed.

(** ** [event_timer_create]: the failed allocation *)

(** C2: when [timerfd_create] fails (here with [EMFILE]) the call returns
    [EM_ERROR_BADFD] and the timer keeps the reactor, the user data and the
    callback written before the allocation; only the descriptor still has
    what the storage held before the call. *)
Theorem create_failed_allocation_keeps_fields :
  ∃ w', event_timer_create 16 4096 (FN_user 1) 7
          (set_faults [Some EMFILE] w_fresh) = Done EM_ERROR_BADFD w' ∧
        heap w' !! 4096 =
          Some {| event_machine := 16;
                  event_descriptor := event_descriptor stale_timer;
                  data := 7;
                  callback := FN_user 1 |} ∧
        heap (set_faults [Some EMFILE] w_fresh) !! 4096 = Some stale_timer ∧
        fds w' = ∅ ∧ registered w' = ∅.
Proof.
  eexists. split; [vm_compute; reflexivity|]. repeat split; reflexivity.
Qed.

(** In general: after a failed allocation the three fields written first
    are those of this call. *)
Lemma create_failed_allocation (event_machine timer : ptr) (callback : fn_ptr)
    (data : ptr) (t : Event_timer) (e : Z) (rest : list (option Z))
    (w : World) :
  event_machine ≠ NULL → timer ≠ NULL → callback ≠ FN_NULL →
  heap w !! timer = Some t →
  faults w = Some e :: rest →
  ∃ w', event_timer_create event_machine timer callback data w
          = Done EM_ERROR_BADFD w' ∧
        heap w' = <[timer := set_TIMER_CALLBACK callback
                               (set_TIMER_DATA data
                                  (set_TIMER_EM event_machine t))]> (heap w) ∧
        fds w' = fds w ∧ registered w' = registered w.
Proof.
  intros Hem Hn Hcb Ht Hf. unfold event_timer_create.
  rewrite (is_null_false _ Hem), (is_null_false _ Hn), (is_null_fn_false _ Hcb).
  unfold timerfd_create. munfold. rewrite Ht. simpl.
  rewrite !lookup_insert_eq. simpl. rewrite !lookup_insert_eq. simpl.
  rewrite Hf. simpl.
  eexists. split; [reflexivity|]. simpl.
  by rewrite !insert_insert_eq.
Qed.

(** ** [event_timer_destroy] *)

(** C7: for a timer that is not null, when [event_machine_delete]
    succeeds: if [close] then reports an error, [event_timer_destroy]
    returns [EM_ERROR_CLOSE] and the timer object is as it was; if [close]
    succeeds, it returns [EM_SUCCESS] and the object is [destroyed_timer],
    all fields zero and the handle [-1]. *)
Theorem destroy_after_unregistration (timer : ptr) (t : Event_timer)
    (w w1 : World) :
  timer ≠ NULL →
  heap w !! timer = Some t →
  event_machine_delete (TIMER_EM t) (TIMER_FD t) w = Done EM_SUCCESS w1 →
  ∃ r w2,
    close (TIMER_FD t) w1 = Done r w2 ∧
    (r < 0 →
       event_timer_destroy timer w = Done EM_ERROR_CLOSE w2 ∧
       heap w2 = heap w) ∧
    (0 ≤ r →
       event_timer_destroy timer w =
         Done EM_SUCCESS (set_heap (<[timer := destroyed_timer]> (heap w)) w2) ∧
       TIMER_FD destroyed_timer = -1 ∧
       set_TIMER_ED (set_ed_fd 0 (TIMER_ED destroyed_timer)) destroyed_timer
         = zero_timer).
Proof.
  intros Hn Ht Hdel.
  destruct (event_machine_delete_spec (TIMER_EM t) (TIMER_FD t) w)
    as (r0 & w0 & Hd & Hh1 & _). rewrite Hdel in Hd. inversion Hd; subst r0 w0.
  destruct (close_spec (TIMER_FD t) w1) as (r & w2 & Hc & Hh2 & _).
  exists r, w2. split; [done|].
  assert (Ht1 : heap w1 !! timer = Some t) by (by rewrite Hh1).
  assert (Hrun : event_timer_destroy timer w =
            (if is_negative r then mret EM_ERROR_CLOSE
             else shred timer;; mret EM_SUCCESS) w2).
  { unfold event_timer_destroy. rewrite (is_null_false _ Hn).
    rewrite (bind_Done _ _ _ _ _ (load_Done _ _ _ Ht)).
    rewrite (bind_Done _ _ _ _ _ Hdel). simpl.
    rewrite (bind_Done _ _ _ _ _ (load_Done _ _ _ Ht1)).
    by rewrite (bind_Done _ _ _ _ _ Hc). }
  rewrite Hrun. unfold is_negative. split.
  - intros Hr. apply Z.ltb_lt in Hr. rewrite Hr.
    split; [done | congruence].
  - intros Hr. apply Z.ltb_ge in Hr. rewrite Hr.
    assert (Ht2 : heap w2 !! timer = Some t) by (by rewrite Hh2).
    rewrite (bind_Done _ _ _ _ _ (shred_Done _ _ _ Ht2)).
    rewrite Hh2, Hh1. done.
Qed.

Lemma destroy_after_unregistration_witness :
  ∃ r w2,
    close (TIMER_FD created_timer)
      (log (Ev_delete 16 0 EM_SUCCESS) (set_registered ∅ w_created))
      = Done r w2 ∧
    (r < 0 →
       event_timer_destroy 4096 w_created = Done EM_ERROR_CLOSE w2 ∧
       heap w2 = heap w_created) ∧
    (0 ≤ r →
       event_timer_destroy 4096 w_created =
         Done EM_SUCCESS
           (set_heap (<[4096 := destroyed_timer]> (heap w_created)) w2) ∧
       TIMER_FD destroyed_timer = -1 ∧
       set_TIMER_ED (set_ed_fd 0 (TIMER_ED destroyed_timer)) destroyed_timer
         = zero_timer).
Proof.
  apply (destroy_after_unregistration 4096 created_timer w_created).
  - vm_compute. discriminate.
  - reflexivity.
  - vm_compute. reflexivity.
Defined.

(** C6: for a created timer (not null, reactor not null), when
    [event_machine_delete] fails with status [ret]: [close] is still called
    on the handle, which is closed afterwards; whatever [close] did to
    [errno], [errno] is again what [event_machine_delete] left;
    [event_timer_destroy] returns [ret]; and the timer object is as it
    was. *)
Theorem destroy_unregistration_failure (timer : ptr) (t : Event_timer)
    (ret : em_status) (w w1 : World) :
  timer ≠ NULL →
  heap w !! timer = Some t →
  TIMER_EM t ≠ NULL →
  event_machine_delete (TIMER_EM t) (TIMER_FD t) w = Done ret w1 →
  ret ≠ EM_SUCCESS →
  ∃ r w2,
    close (TIMER_FD t) w1 = Done r w2 ∧
    event_timer_destroy timer w = Done ret (set_errno (errno w1) w2) ∧
    kernel_timer (TIMER_FD t) (set_errno (errno w1) w2) = None ∧
    trace (set_errno (errno w1) w2) =
      trace w ++ [Ev_delete (TIMER_EM t) (TIMER_FD t) ret;
                  Ev_close (TIMER_FD t) r] ∧
    errno (set_errno (errno w1) w2) = errno w1 ∧
    heap (set_errno (errno w1) w2) = heap w.
Proof.
  intros Hn Ht Hem Hdel Hret.
  destruct (event_machine_delete_spec (TIMER_EM t) (TIMER_FD t) w)
    as (r0 & w0 & Hd & Hh1 & _ & Htr1 & Hst & _).
  rewrite Hdel in Hd. inversion Hd; subst r0 w0.
  destruct (Hst Hem) as [->| ->]; [done|].
  destruct (close_spec (TIMER_FD t) w1) as (r & w2 & Hc & Hh2 & _ & Hk & _ & Htr2).
  exists r, w2. split; [done|].
  assert (Ht1 : heap w1 !! timer = Some t) by (by rewrite Hh1).
  split.
  { unfold event_timer_destroy. rewrite (is_null_false _ Hn).
    rewrite (bind_Done _ _ _ _ _ (load_Done _ _ _ Ht)).
    rewrite (bind_Done _ _ _ _ _ Hdel). simpl.
    munfold. rewrite Ht1. simpl. by rewrite Hc. }
  simpl. repeat split.
  - done.
  - rewrite Htr2, Htr1, <- app_assoc. done.
  - congruence.
Qed.

Lemma destroy_unregistration_failure_witness :
  ∃ r w2,
    close (TIMER_FD created_timer)
      (log (Ev_delete 16 0 EM_ERROR_UNREGISTER)
         (set_errno 12 (set_faults [Some 4] w_created))) = Done r w2 ∧
    event_timer_destroy 4096 (set_faults [Some 12; Some 4] w_created)
      = Done EM_ERROR_UNREGISTER (set_errno 12 w2) ∧
    kernel_timer (TIMER_FD created_timer) (set_errno 12 w2) = None ∧
    trace (set_errno 12 w2) =
      trace (set_faults [Some 12; Some 4] w_created) ++
        [Ev_delete (TIMER_EM created_timer) (TIMER_FD created_timer)
           EM_ERROR_UNREGISTER;
         Ev_close (TIMER_FD created_timer) r] ∧
    errno (set_errno 12 w2) = 12 ∧
    heap (set_errno 12 w2) = heap (set_faults [Some 12; Some 4] w_created).
Proof.
  apply (destroy_unregistration_failure 4096 created_timer EM_ERROR_UNREGISTER
           (set_faults [Some 12; Some 4] w_created)
           (log (Ev_delete 16 0 EM_ERROR_UNREGISTER)
              (set_errno 12 (set_faults [Some 4] w_created)))).
  - vm_compute. discriminate.
  - reflexivity.
  - vm_compute. discriminate.
  - vm_compute. reflexivity.
  - discriminate.
Defined.

(** ** [event_timer_create]: the failed registration *)

#[local] Arguments lowest_free : simpl never.

(** C4: with arguments that are not null, when the kernel hands out a
    descriptor [fd] and the reactor then refuses the registration with
    [errno = e]: [fd] is closed again (the kernel's table of timers is what
    it was before the call) whatever [close] itself reports, the timer
    object is [destroyed_timer] (all zero, handle [-1]), nothing is
    registered, [errno] is [e] on return, and the status returned is the
    one [event_machine_add] gave. *)
Theorem create_registration_failure (event_machine timer : ptr)
    (callback : fn_ptr) (data : ptr) (t : Event_timer) (e : Z)
    (rest : list (option Z)) (w : World) :
  event_machine ≠ NULL → timer ≠ NULL → callback ≠ FN_NULL →
  heap w !! timer = Some t →
  faults w = None :: Some e :: rest →
  ∃ fd r w',
    0 ≤ fd ∧ fds w !! fd = None ∧
    event_timer_create event_machine timer callback data w
      = Done EM_ERROR_REGISTER w' ∧
    trace w' = trace w ++
      [Ev_timerfd_create CLOCK_MONOTONIC (Z.lor TFD_CLOEXEC TFD_NONBLOCK) fd;
       Ev_add event_machine (ED_of timer) EM_ERROR_REGISTER;
       Ev_close fd r] ∧
    fds w' = fds w ∧
    registered w' = registered w ∧
    heap w' = <[timer := destroyed_timer]> (heap w) ∧
    errno w' = e ∧
    ((r = -1) ↔ (∃ e' rest', rest = Some e' :: rest')).
Proof.
  intros Hem Hn Hcb Ht Hf.
  destruct (lowest_free_total (fds w)) as [fd Hfd].
  destruct (lowest_free_Some _ _ _ _ Hfd) as [Hfd0 Hfree].
  assert (Hv : is_invalid_fd fd = false).
  { unfold is_invalid_fd, valid_fd. apply negb_false_iff. by apply Z.leb_le. }
  assert (Hk : (fd <? 0) = false) by (by apply Z.ltb_ge).
  exists fd.
  unfold event_timer_create.
  rewrite (is_null_false _ Hem), (is_null_false _ Hn), (is_null_fn_false _ Hcb).
  unfold timerfd_create, event_machine_add, close, shred, memset_zero,
    kernel_timer.
  munfold. rewrite Ht.
  do 3 (simpl; rewrite ?lookup_insert_eq).
  rewrite Hf. simpl. rewrite Hfd. simpl. rewrite Hv.
  do 5 (simpl; rewrite ?lookup_insert_eq).
  destruct (decide (event_machine = NULL)) as [?|_]; [done|].
  do 2 (simpl; rewrite ?lookup_insert_eq).
  rewrite Hk.
  do 2 (simpl; rewrite ?lookup_insert_eq).
  destruct rest as [|[e'|] rest'];
    do 4 (simpl; rewrite ?lookup_insert_eq);
    eexists _, _; (split; [done|]); (split; [done|]);
    (split; [reflexivity|]); simpl;
    rewrite <- !app_assoc; simpl;
    rewrite !insert_insert_eq, delete_insert_eq, (delete_id _ _ Hfree);
    repeat split; try done; try (intros (? & ? & ?); done); eauto.
Qed.

Lemma create_registration_failure_witness :
  ∃ fd r w',
    0 ≤ fd ∧ fds (set_faults [None; Some 12; Some 4] w_fresh) !! fd = None ∧
    event_timer_create 16 4096 (FN_user 1) 7
      (set_faults [None; Some 12; Some 4] w_fresh)
      = Done EM_ERROR_REGISTER w' ∧
    trace w' = trace (set_faults [None; Some 12; Some 4] w_fresh) ++
      [Ev_timerfd_create CLOCK_MONOTONIC (Z.lor TFD_CLOEXEC TFD_NONBLOCK) fd;
       Ev_add 16 (ED_of 4096) EM_ERROR_REGISTER;
       Ev_close fd r] ∧
    fds w' = fds (set_faults [None; Some 12; Some 4] w_fresh) ∧
    registered w' = registered (set_faults [None; Some 12; Some 4] w_fresh) ∧
    heap w' = <[4096 := destroyed_timer]>
                (heap (set_faults [None; Some 12; Some 4] w_fresh)) ∧
    errno w' = 12 ∧
    ((r = -1) ↔ (∃ e' rest', [Some 4] = Some e' :: rest')).
Proof.
  apply (create_registration_failure 16 4096 (FN_user 1) 7 stale_timer 12
           [Some 4] (set_faults [None; Some 12; Some 4] w_fresh)).
  - vm_compute. discriminate.
  - vm_compute. discriminate.
  - discriminate.
  - reflexivity.
  - reflexivity.
Defined.

(** ** [event_timer_create]: success *)

(** X2: when the environment lets the allocation and the registration
    through, [event_timer_create] succeeds and leaves a created timer,
    registered and not armed. *)
Lemma create_success (event_machine timer : ptr) (callback : fn_ptr)
    (data : ptr) (t : Event_timer) (w : World) :
  event_machine ≠ NULL → timer ≠ NULL → callback ≠ FN_NULL →
  heap w !! timer = Some t →
  take 2 (faults w) = replicate (length (take 2 (faults w))) None →
  ∃ fd w',
    event_timer_create event_machine timer callback data w
      = Done EM_SUCCESS w' ∧
    fds w !! fd = None ∧
    created w' timer
      {| event_machine := event_machine;
         event_descriptor :=
           {| ed_fd := fd; ed_events := EPOLLIN; ed_data := timer;
              ed_handler := FN_internal_timeout_handler |};
         data := data;
         callback := callback |} ∧
    kernel_timer fd w' = Some new_timerfd.
Proof.
  intros Hem Hn Hcb Ht Hf.
  destruct (lowest_free_total (fds w)) as [fd Hfd].
  destruct (lowest_free_Some _ _ _ _ Hfd) as [Hfd0 Hfree].
  assert (Hv : is_invalid_fd fd = false).
  { unfold is_invalid_fd, valid_fd. apply negb_false_iff. by apply Z.leb_le. }
  assert (Hk : (fd <? 0) = false) by (by apply Z.ltb_ge).
  exists fd.
  unfold event_timer_create.
  rewrite (is_null_false _ Hem), (is_null_false _ Hn), (is_null_fn_false _ Hcb).
  unfold timerfd_create, event_machine_add. munfold. rewrite Ht.
  do 3 (simpl; rewrite ?lookup_insert_eq).
  destruct (faults w) as [|[e|] [|[e'|] rest]] eqn:Hfw; try discriminate Hf;
    simpl; rewrite ?Hfw; simpl; rewrite Hfd; simpl; rewrite Hv;
    do 5 (simpl; rewrite ?lookup_insert_eq, ?Hfw);
    (destruct (decide (event_machine = NULL)) as [?|_]; [done|]);
    do 2 (simpl; rewrite ?lookup_insert_eq, ?Hfw);
    eexists; (split; [reflexivity|]); (split; [done|]);
    unfold created, kernel_timer, TIMER_FD, TIMER_EM, TIMER_ED,
      TIMER_CALLBACK; simpl; rewrite ?Hk, ?lookup_insert_eq;
    repeat split; try done; try by eexists.
Qed.

(** ** [event_timer_stop] on a created timer *)

(** C9: on a created timer [event_timer_stop] returns [EM_SUCCESS] after
    the one call [timerfd_settime (fd, 0, all-zero)]; the kernel timer of
    the handle is then disarmed and every other kernel timer is as before;
    no timer object changes, the registrations are the same, [errno] is the
    same, and the timer is still a created timer.  Stopping it again
    returns [EM_SUCCESS] again and leaves objects, kernel timers and
    registrations as the first stop left them. *)
Theorem stop_created (timer : ptr) (t : Event_timer) (w : World) :
  created w timer t →
  ∃ w' w'',
    event_timer_stop timer w = Done EM_SUCCESS w' ∧
    w' = log (Ev_timerfd_settime (TIMER_FD t) 0 zero_itimerspec 0)
           (set_fds (<[TIMER_FD t := stopped_timerfd]> (fds w)) w) ∧
    kernel_timer (TIMER_FD t) w' = Some stopped_timerfd ∧
    heap w' = heap w ∧
    registered w' = registered w ∧
    errno w' = errno w ∧
    created w' timer t ∧
    event_timer_stop timer w' = Done EM_SUCCESS w'' ∧
    heap w'' = heap w' ∧
    fds w'' = fds w' ∧
    registered w'' = registered w'.
Proof.
  intros (Hn & Ht & Hem & Hcb & Hev & Hd & Hh & [tf Hk] & Hr).
  assert (Hstop : ∀ w0 tf0, heap w0 !! timer = Some t →
            kernel_timer (TIMER_FD t) w0 = Some tf0 →
            event_timer_stop timer w0 =
              Done EM_SUCCESS
                (log (Ev_timerfd_settime (TIMER_FD t) 0 zero_itimerspec 0)
                   (set_fds (<[TIMER_FD t := stopped_timerfd]> (fds w0)) w0))).
  { intros w0 tf0 Ht0 Hk0. unfold event_timer_stop.
    rewrite (is_null_false _ Hn).
    rewrite (bind_Done _ _ _ _ _ (load_Done _ _ _ Ht0)).
    rewrite (bind_Done _ _ _ _ _
               (timerfd_settime_open _ zero_itimerspec _ _ Hk0 eq_refl)).
    reflexivity. }
  assert (Hk' : kernel_timer (TIMER_FD t)
            (log (Ev_timerfd_settime (TIMER_FD t) 0 zero_itimerspec 0)
               (set_fds (<[TIMER_FD t := stopped_timerfd]> (fds w)) w))
            = Some stopped_timerfd).
  { unfold kernel_timer in *. simpl. destruct (TIMER_FD t <? 0); [done|].
    by rewrite lookup_insert_eq. }
  eexists _, _.
  split; [apply (Hstop w tf Ht Hk)|].
  split; [reflexivity|].
  split; [exact Hk'|].
  split; [reflexivity|]. split; [reflexivity|]. split; [reflexivity|].
  split.
  { unfold created. repeat split; try done; try by eexists. }
  split; [apply (Hstop _ stopped_timerfd); [exact Ht | exact Hk']|].
  simpl. repeat split; try done. by rewrite insert_insert_eq.
Qed.

Lemma stop_created_witness :
  ∃ w' w'',
    event_timer_stop 4096 (w_pending 3) = Done EM_SUCCESS w' ∧
    w' = log (Ev_timerfd_settime (TIMER_FD created_timer) 0 zero_itimerspec 0)
           (set_fds (<[TIMER_FD created_timer := stopped_timerfd]>
                       (fds (w_pending 3))) (w_pending 3)) ∧
    kernel_timer (TIMER_FD created_timer) w' = Some stopped_timerfd ∧
    heap w' = heap (w_pending 3) ∧
    registered w' = registered (w_pending 3) ∧
    errno w' = errno (w_pending 3) ∧
    created w' 4096 created_timer ∧
    event_timer_stop 4096 w' = Done EM_SUCCESS w'' ∧
    heap w'' = heap w' ∧
    fds w'' = fds w' ∧
    registered w'' = registered w'.
Proof.
  apply (stop_created 4096 created_timer (w_pending 3)).
  unfold created. repeat split; done.
Defined.

(** ** The destroyed state *)

(** C3, as the code has it: on a timer in the destroyed state
    [event_timer_start] and [event_timer_stop] return
    [EM_ERROR_TIMERFD_SETTIME], because the kernel refuses the handle
    [-1]; they change no timer object, no kernel timer and no
    registration.  [event_timer_destroy] does not report success, and
    however it ends, no kernel timer has been released and the object is
    still in the destroyed state. *)
Theorem destroyed_timer_calls (timer : ptr) (msec : Z) (w : World) :
  destroyed w timer →
  (∃ w', event_timer_start timer msec w = Done EM_ERROR_TIMERFD_SETTIME w' ∧
         heap w' = heap w ∧ fds w' = fds w ∧ registered w' = registered w) ∧
  (∃ w', event_timer_stop timer w = Done EM_ERROR_TIMERFD_SETTIME w' ∧
         heap w' = heap w ∧ fds w' = fds w ∧ registered w' = registered w) ∧
  match event_timer_destroy timer w with
  | Done s w' => s ≠ EM_SUCCESS ∧ fds w' = fds w ∧ destroyed w' timer
  | Abort w' => fds w' = fds w ∧ destroyed w' timer
  | Undefined => False
  end.
Proof.
  intros [Hn Ht].
  assert (Hset : ∀ v, ∃ w',
            (r ← timerfd_settime (TIMER_FD destroyed_timer) 0 v;
             if is_negative r then mret EM_ERROR_TIMERFD_SETTIME
             else mret EM_SUCCESS) w = Done EM_ERROR_TIMERFD_SETTIME w' ∧
            heap w' = heap w ∧ fds w' = fds w ∧ registered w' = registered w).
  { intros v.
    destruct (timerfd_settime_not_open (TIMER_FD destroyed_timer) 0 v w)
      as [e He]; [done|].
    rewrite (bind_Done _ _ _ _ _ He). eexists. split; [reflexivity|]. done. }
  split; [|split].
  - unfold event_timer_start. rewrite (is_null_false _ Hn).
    rewrite (bind_Done _ _ _ _ _ (load_Done _ _ _ Ht)). apply Hset.
  - unfold event_timer_stop. rewrite (is_null_false _ Hn).
    rewrite (bind_Done _ _ _ _ _ (load_Done _ _ _ Ht)). apply Hset.
  - unfold event_timer_destroy. rewrite (is_null_false _ Hn).
    rewrite (bind_Done _ _ _ _ _ (load_Done _ _ _ Ht)).
    destruct (event_machine_delete_spec (TIMER_EM destroyed_timer)
                (TIMER_FD destroyed_timer) w)
      as (r & w1 & Hd & _ & _ & _ & _ & Hnull).
    destruct (Hnull eq_refl) as [-> ->].
    rewrite (bind_Done _ _ _ _ _ Hd). simpl. done.
Qed.

Lemma destroyed_timer_calls_witness :
  (∃ w', event_timer_start 4096 50 w_destroyed
           = Done EM_ERROR_TIMERFD_SETTIME w' ∧
         heap w' = heap w_destroyed ∧ fds w' = fds w_destroyed ∧
         registered w' = registered w_destroyed) ∧
  (∃ w', event_timer_stop 4096 w_destroyed
           = Done EM_ERROR_TIMERFD_SETTIME w' ∧
         heap w' = heap w_destroyed ∧ fds w' = fds w_destroyed ∧
         registered w' = registered w_destroyed) ∧
  match event_timer_destroy 4096 w_destroyed with
  | Done s w' => s ≠ EM_SUCCESS ∧ fds w' = fds w_destroyed ∧ destroyed w' 4096
  | Abort w' => fds w' = fds w_destroyed ∧ destroyed w' 4096
  | Undefined => False
  end.
Proof.
  apply (destroyed_timer_calls 4096 50 w_destroyed).
  split; [vm_compute; discriminate | reflexivity].
Defined.

(** C3, as stated, fails: in the scenario's destroyed world
    [event_timer_start] does not return one of the statuses for a null
    argument or an invalid handle. *)
Lemma destroyed_start_status_not_null_or_invalid :
  ¬ (∃ s w', event_timer_start 4096 50 w_destroyed = Done s w' ∧
             (s = EM_ERROR_NULL ∨ s = EM_ERROR_TIMER_NULL ∨
              s = EM_ERROR_DESCRIPTOR_NULL ∨ s = EM_ERROR_CALLBACK_NULL ∨
              s = EM_ERROR_BADFD)).
Proof.
  intros (s & w' & H & Hs). vm_compute in H. inversion H; subst s.
  destruct Hs as [?|[?|[?|[?|?]]]]; discriminate.
Qed.

(** On a destroyed timer [event_timer_destroy] stops in its first
    assertion: the reactor field is null, [event_machine_delete] reports
    [EM_ERROR_NULL], and the assertion excludes that status. *)
Lemma destroy_destroyed_aborts (timer : ptr) (w : World) :
  destroyed w timer →
  event_timer_destroy timer w =
    Abort (log (Ev_delete NULL (-1) EM_ERROR_NULL) w).
Proof.
  intros [Hn Ht]. unfold event_timer_destroy. rewrite (is_null_false _ Hn).
  rewrite (bind_Done _ _ _ _ _ (load_Done _ _ _ Ht)). reflexivity.
Qed.

(** ** The expiration handler *)

Lemma callbacks_of_app (l1 l2 : list event) :
  callbacks_of (l1 ++ l2) = callbacks_of l1 ++ callbacks_of l2.
Proof. unfold callbacks_of. apply List.filter_app. Qed.

Section Dispatch_properties.

Variable user_code : Z → option (ptr → ptr → M unit).

(** The timer at [data], its callback [FN_user a] with body [body], its
    user data [user_data]. *)
Variables (data : ptr) (a : Z) (body : ptr → ptr → M unit) (user_data : ptr).
Hypothesis Hcode : user_code a = Some body.

(** When each call of this run of the loop returns and leaves the callback
    and the user data of the timer in place, the loop is [n] calls of
    [body] with the timer and its user data, one after another. *)
Lemma timeout_loop_invocations (n : nat) (w : World) :
  intact data (FN_user a) user_data w →
  each_call_keeps body a data user_data n w →
  ∃ w', timeout_loop user_code n data w = Done tt w' ∧
        invocations body (FN_user a) data user_data n w w'.
Proof.
  revert w. induction n as [|n IH]; intros w Hi Hkeep.
  - exists w. split; [reflexivity | constructor].
  - destruct Hi as (t & Ht & Hcb & Hud).
    destruct Hkeep as (w1 & Hb & Hi1 & Hrest).
    destruct (IH w1 Hi1 Hrest) as (w' & Hl & Hinv).
    exists w'. split.
    + cbn [timeout_loop].
      rewrite (bind_Done _ _ _ _ _ (load_Done _ _ _ Ht)).
      rewrite Hcb, Hud. unfold call_handler. rewrite Hcode.
      assert (Hcall : (modify (log (Ev_callback (FN_user a) data user_data));;
                       body data user_data) w = Done tt w1).
      { unfold mbind, M_bind, modify. exact Hb. }
      rewrite (bind_Done _ _ _ _ _ Hcall). exact Hl.
    + by apply (invocations_call _ _ _ _ _ _ w1).
Qed.

End Dispatch_properties.

(** When the timer has nothing to read, [read] fails with [EAGAIN] and the
    handler returns at once: the only new entry of the log is that [read],
    no callback is invoked, no assertion fails. *)
Lemma handler_would_block (user_code : Z → option (ptr → ptr → M unit))
    (em : ptr) (events fd : Z) (data : ptr) (tf : timerfd) (w : World) :
  em ≠ NULL →
  kernel_timer fd w = Some tf →
  tfd_expirations tf ≤ 0 →
  internal_timeout_handler user_code em events fd data w =
    Done tt (log (Ev_read fd (-1)) (set_errno EAGAIN w)).
Proof.
  intros Hem Hk Hz.
  assert (Hfd : valid_fd fd = true).
  { unfold kernel_timer in Hk. unfold valid_fd.
    destruct (fd <? 0) eqn:E; [done|]. apply Z.leb_le. by apply Z.ltb_ge. }
  unfold internal_timeout_handler, read_uint64.
  rewrite (is_null_false _ Hem), Hfd. munfold. simpl. rewrite Hk.
  apply Z.leb_le in Hz. rewrite Hz. reflexivity.
Qed.

(** The world after the [read] of the handler, in its two cases. *)
Lemma after_read_cases (fd : Z) (tf : timerfd) (w : World) :
  kernel_timer fd w = Some tf →
  (tfd_expirations tf ≤ 0 →
     after_read fd w = log (Ev_read fd (-1)) (set_errno EAGAIN w)) ∧
  (0 < tfd_expirations tf →
     after_read fd w =
       log (Ev_read fd sizeof_uint64_t)
         (set_fds (<[fd := {| tfd_setting := tfd_setting tf;
                              tfd_expirations := 0 |}]> (fds w)) w)).
Proof.
  intros Hk. unfold after_read, read_uint64. munfold. simpl. rewrite Hk.
  split; intros H.
  - apply Z.leb_le in H. by rewrite H.
  - apply Z.leb_gt in H. by rewrite H.
Qed.

(** C5, as the code has it.  The handler is called with a reactor that is
    not null and a handle that is an open kernel timer, and [read] on the
    handle reports [n] expirations, or would block ([n = 0]).  Provided
    that, when there is something to read, the timer at [data] has a
    callback with a function behind it and each call of it made in this
    invocation returns and leaves the timer's callback and user data in
    place: the handler returns, and what it has done after the [read] is
    exactly [n] calls of that callback, one after another, each with the
    timer [data] and its user data.  When [read] would block, the handler
    returns at once, with no call and no failed assertion. *)
Theorem handler_invokes_callback
    (user_code : Z → option (ptr → ptr → M unit))
    (em : ptr) (events fd : Z) (data : ptr) (a : Z)
    (body : ptr → ptr → M unit) (user_data : ptr)
    (tf : timerfd) (w : World) :
  em ≠ NULL →
  kernel_timer fd w = Some tf →
  (0 < tfd_expirations tf →
     user_code a = Some body ∧
     intact data (FN_user a) user_data w ∧
     each_call_keeps body a data user_data
       (Z.to_nat (tfd_expirations tf)) (after_read fd w)) →
  ∃ w', internal_timeout_handler user_code em events fd data w = Done tt w' ∧
        invocations body (FN_user a) data user_data
          (Z.to_nat (tfd_expirations tf)) (after_read fd w) w' ∧
        (tfd_expirations tf ≤ 0 →
           w' = log (Ev_read fd (-1)) (set_errno EAGAIN w)).
Proof.
  intros Hem Hk Hcalls.
  destruct (after_read_cases fd tf w Hk) as [Hblock Hread].
  destruct (decide (tfd_expirations tf ≤ 0)) as [Hz|Hpos].
  - eexists. split; [by apply (handler_would_block _ _ _ _ _ tf)|].
    split; [|done].
    rewrite Z2Nat.nonpos by done. rewrite (Hblock Hz). constructor.
  - assert (Hfd : valid_fd fd = true).
    { unfold kernel_timer in Hk. unfold valid_fd.
      destruct (fd <? 0) eqn:E; [done|]. apply Z.leb_le. by apply Z.ltb_ge. }
    destruct (Hcalls ltac:(lia)) as (Hcode & Hi & Hkeep).
    rewrite (Hread ltac:(lia)) in *.
    assert (Hi1 : intact data (FN_user a) user_data
              (log (Ev_read fd sizeof_uint64_t)
                 (set_fds (<[fd := {| tfd_setting := tfd_setting tf;
                                      tfd_expirations := 0 |}]> (fds w)) w))).
    { destruct Hi as (t & ?). exists t. done. }
    destruct (timeout_loop_invocations user_code data a body user_data Hcode
                (Z.to_nat (tfd_expirations tf)) _ Hi1 Hkeep)
      as (w' & Hl & Hinv).
    exists w'. split; [|split; [done | lia]].
    unfold internal_timeout_handler, read_uint64.
    rewrite (is_null_false _ Hem), Hfd. munfold. simpl. rewrite Hk.
    assert (Hgt : (tfd_expirations tf <=? 0) = false) by (apply Z.leb_gt; lia).
    rewrite Hgt. simpl. exact Hl.
Qed.

Lemma handler_invokes_callback_witness :
  ∃ w', internal_timeout_handler code_restart 16 EPOLLIN 0 4096 (w_pending 3)
          = Done tt w' ∧
        invocations (fun timer _ => _ ← event_timer_start timer 10; mret tt)
          (FN_user 1) 4096 7 (Z.to_nat 3) (after_read 0 (w_pending 3)) w' ∧
        (3 ≤ 0 → w' = log (Ev_read 0 (-1)) (set_errno EAGAIN (w_pending 3))).
Proof.
  apply (handler_invokes_callback code_restart 16 EPOLLIN 0 4096 1
           (fun timer _ => _ ← event_timer_start timer 10; mret tt) 7
           {| tfd_setting :=
                {| it_interval := {| tv_sec := 0; tv_nsec := 50000 |};
                   it_value := {| tv_sec := 0; tv_nsec := 50000 |} |};
              tfd_expirations := 3 |} (w_pending 3)).
  - vm_compute. discriminate.
  - reflexivity.
  - intros _. split; [reflexivity|]. split.
    + exists created_timer. split; [reflexivity|]. split; reflexivity.
    + change (Z.to_nat 3) with 3%nat. cbn [each_call_keeps].
      eexists. split; [vm_compute; reflexivity|].
      split; [exists created_timer; split; [reflexivity | split; reflexivity]|].
      eexists. split; [vm_compute; reflexivity|].
      split; [exists created_timer; split; [reflexivity | split; reflexivity]|].
      eexists. split; [vm_compute; reflexivity|].
      split; [exists created_timer; split; [reflexivity | split; reflexivity]|].
      exact I.
Defined.

(** C5, as stated, fails: with two expirations to read and a callback that
    destroys its timer, the first invocation leaves the callback field
    null and the second iteration of the loop calls through it; the
    handler does not return after two invocations. *)
Lemma handler_callback_destroys_timer :
  read_uint64 0 (w_pending 2) =
    Done (sizeof_uint64_t, Some 2)
      (log (Ev_read 0 sizeof_uint64_t)
         (set_fds {[ 0 := {| tfd_setting :=
                               {| it_interval := {| tv_sec := 0; tv_nsec := 50000 |};
                                  it_value := {| tv_sec := 0; tv_nsec := 50000 |} |};
                             tfd_expirations := 0 |} ]} (w_pending 2))) ∧
  internal_timeout_handler code_destroy 16 EPOLLIN 0 4096 (w_pending 2)
    = Undefined ∧
  ¬ (∃ w', internal_timeout_handler code_destroy 16 EPOLLIN 0 4096 (w_pending 2)
             = Done tt w' ∧
           callbacks_of (trace w') =
             callbacks_of (trace (w_pending 2)) ++
             repeat (Ev_callback (FN_user 1) 4096 7) 2).
Proof.
  split; [vm_compute; reflexivity|].
  assert (H : internal_timeout_handler code_destroy 16 EPOLLIN 0 4096
                (w_pending 2) = Undefined) by (vm_compute; reflexivity).
  split; [exact H|]. intros (w' & Hw & _). rewrite H in Hw. discriminate.
Qed.
(** ** More on [event_timer_create] *)

(** Entries of the log that are not callbacks do not count. *)
Ltac solve_callbacks :=
  unfold callbacks_of; rewrite ?List.filter_app; simpl;
  rewrite ?app_nil_r; reflexivity.

(** The two ways [event_timer_create] ends once its arguments have passed
    the null checks: success, with the timer filled in, a new kernel timer
    on a descriptor that was free and the descriptor registered; or
    failure, with the kernel timers and the registrations as they were and
    no object touched but [*timer]. *)
Lemma create_outcome (event_machine timer : ptr) (callback : fn_ptr)
    (data : ptr) (t : Event_timer) (w : World) :
  event_machine ≠ NULL → timer ≠ NULL → callback ≠ FN_NULL →
  heap w !! timer = Some t →
  ∃ fd s w',
    0 ≤ fd ∧ fds w !! fd = None ∧
    event_timer_create event_machine timer callback data w = Done s w' ∧
    callbacks_of (trace w') = callbacks_of (trace w) ∧
    ((s = EM_SUCCESS ∧ no_fault 2 w ∧
      heap w' =
        <[timer := initialised_timer event_machine timer callback data fd]>
          (heap w) ∧
      fds w' = <[fd := new_timerfd]> (fds w) ∧
      registered w' = <[fd := (event_machine, ED_of timer)]> (registered w) ∧
      faults w' = drop 2 (faults w) ∧
      errno w' = errno w)
     ∨
     (s ≠ EM_SUCCESS ∧ ¬ no_fault 2 w ∧
      fds w' = fds w ∧ registered w' = registered w ∧
      ∃ t', heap w' = <[timer := t']> (heap w))).
Proof.
  intros Hem Hn Hcb Ht.
  destruct (lowest_free_total (fds w)) as [fd Hfd].
  destruct (lowest_free_Some _ _ _ _ Hfd) as [Hfd0 Hfree].
  assert (Hv : is_invalid_fd fd = false).
  { unfold is_invalid_fd, valid_fd. apply negb_false_iff. by apply Z.leb_le. }
  assert (Hk : (fd <? 0) = false) by (by apply Z.ltb_ge).
  exists fd.
  unfold event_timer_create.
  rewrite (is_null_false _ Hem), (is_null_false _ Hn), (is_null_fn_false _ Hcb).
  unfold timerfd_create, event_machine_add, close, shred, memset_zero,
    kernel_timer, no_fault.
  munfold. rewrite Ht.
  do 3 (simpl; rewrite ?lookup_insert_eq).
  destruct (faults w) as [|[e|] [|[e'|] rest]] eqn:Hfw.
  1,5,7: (simpl; rewrite ?Hfw; simpl; rewrite Hfd; simpl; rewrite Hv;
    do 5 (simpl; rewrite ?lookup_insert_eq, ?Hfw);
    (destruct (decide (event_machine = NULL)) as [?|_]; [done|]);
    do 2 (simpl; rewrite ?lookup_insert_eq, ?Hfw);
    eexists _, _; (split; [done|]); (split; [done|]);
    (split; [reflexivity|]); (split; [simpl; solve_callbacks|]); left; simpl;
    rewrite !insert_insert_eq; repeat split; done).
  1,2,3: (simpl; rewrite ?Hfw; simpl;
    eexists _, _; (split; [done|]); (split; [done|]);
    (split; [reflexivity|]); (split; [simpl; solve_callbacks|]); right; simpl;
    rewrite !insert_insert_eq; repeat split; try done; by eexists).
  simpl; rewrite ?Hfw; simpl; rewrite Hfd; simpl; rewrite Hv.
  do 5 (simpl; rewrite ?lookup_insert_eq, ?Hfw).
  destruct (decide (event_machine = NULL)) as [?|_]; [done|].
  do 2 (simpl; rewrite ?lookup_insert_eq, ?Hfw).
  rewrite Hk.
  do 2 (simpl; rewrite ?lookup_insert_eq).
  destruct rest as [|[e''|] rest'];
    do 4 (simpl; rewrite ?lookup_insert_eq);
    eexists _, _; (split; [done|]); (split; [done|]);
    (split; [reflexivity|]); (split; [simpl; solve_callbacks|]); right; simpl;
    rewrite !insert_insert_eq, delete_insert_eq, (delete_id _ _ Hfree);
    repeat split; try done; by eexists.
Qed.

(** ** More on [event_timer_destroy] *)

(** [event_machine_delete] either removes the registration of the handle,
    and nothing else, or leaves the registrations alone. *)
Lemma event_machine_delete_cases (em : ptr) (fd : Z) (w : World) :
  ∃ r w', event_machine_delete em fd w = Done r w' ∧
    heap w' = heap w ∧ fds w' = fds w ∧
    ((r = EM_SUCCESS ∧ registered w' = delete fd (registered w) ∧
      errno w' = errno w ∧ faults w' = drop 1 (faults w) ∧ no_fault 1 w)
     ∨ (r ≠ EM_SUCCESS ∧ registered w' = registered w)) ∧
    (em ≠ NULL → (∃ ed, registered w !! fd = Some (em, ed)) → no_fault 1 w →
     r = EM_SUCCESS).
Proof.
  unfold event_machine_delete, no_fault. munfold. simpl.
  destruct (decide (em = NULL)) as [->|Hem]; simpl.
  - eexists _, _. split; [reflexivity|]. simpl.
    repeat split; try done. right. done.
  - destruct (registered w !! fd) as [[em' ed]|] eqn:E; simpl.
    + destruct (decide (em' = em)) as [Heq|Hneq]; simpl.
      * destruct (faults w) as [|[e|] rest] eqn:Hfw; simpl; eexists _, _;
          (split; [reflexivity|]); simpl; repeat split; try done;
          try (left; by rewrite ?Hfw); right; done.
      * eexists _, _. split; [reflexivity|]. simpl.
        repeat split; try done; [by right|].
        intros _ [ed' [= <- _]] _. done.
    + eexists _, _. split; [reflexivity|]. simpl.
      repeat split; try done; [by right|]. intros _ [ed' ?] _. done.
Qed.

(** [close] on an open descriptor that the environment lets through. *)
Lemma close_open_ok (fd : Z) (tf : timerfd) (w : World) :
  kernel_timer fd w = Some tf → no_fault 1 w →
  ∃ w', close fd w = Done 0 w' ∧
    heap w' = heap w ∧ registered w' = registered w ∧
    fds w' = delete fd (fds w) ∧ errno w' = errno w ∧
    faults w' = drop 1 (faults w).
Proof.
  intros Hk Hf. unfold close, no_fault in *. munfold. simpl. rewrite Hk. simpl.
  destruct (faults w) as [|[e|] rest] eqn:Hfw; [|done|];
    simpl; eexists; (split; [reflexivity|]); simpl; by rewrite ?Hfw.
Qed.

(** [close] in general: the descriptor is closed afterwards, the others
    are as before. *)
Lemma close_cases (fd : Z) (w : World) :
  ∃ r w', close fd w = Done r w' ∧
    heap w' = heap w ∧ registered w' = registered w ∧
    kernel_timer fd w' = None ∧
    (∀ fd', fd' ≠ fd → fds w' !! fd' = fds w !! fd') ∧
    (kernel_timer fd w = None → fds w' = fds w ∧ r = -1).
Proof.
  destruct (close_spec fd w) as (r & w' & Hc & Hh & Hr & Hk & Hf & _).
  exists r, w'. do 5 (split; [done|]).
  intros Hn. rewrite (close_not_open _ _ Hn) in Hc. by inversion Hc.
Qed.

(** X11: whenever [event_timer_destroy] returns for a timer that is not
    null, with whatever status, the timer's handle is not an open kernel
    timer any more; every other kernel timer, every other registration and
    every other timer object is as it was.  The timer object is wiped, and
    its registration gone, when the status is [EM_SUCCESS]; with any other
    status the timer object is untouched. *)
Theorem destroy_outcome (timer : ptr) (t : Event_timer) (s : em_status)
    (w w' : World) :
  timer ≠ NULL → heap w !! timer = Some t →
  event_timer_destroy timer w = Done s w' →
  kernel_timer (TIMER_FD t) w' = None ∧
  (∀ fd', fd' ≠ TIMER_FD t → fds w' !! fd' = fds w !! fd') ∧
  (∀ fd', fd' ≠ TIMER_FD t → registered w' !! fd' = registered w !! fd') ∧
  (∀ p, p ≠ timer → heap w' !! p = heap w !! p) ∧
  (s = EM_SUCCESS →
     heap w' = <[timer := destroyed_timer]> (heap w) ∧
     registered w' = delete (TIMER_FD t) (registered w)) ∧
  (s ≠ EM_SUCCESS → heap w' = heap w).
Proof.
  intros Hn Ht Hrun. unfold event_timer_destroy in Hrun.
  rewrite (is_null_false _ Hn) in Hrun.
  rewrite (bind_Done _ _ _ _ _ (load_Done _ _ _ Ht)) in Hrun.
  destruct (event_machine_delete_cases (TIMER_EM t) (TIMER_FD t) w)
    as (r & w1 & Hd & Hh1 & Hf1 & Hreg & _).
  rewrite (bind_Done _ _ _ _ _ Hd) in Hrun.
  assert (Ht1 : heap w1 !! timer = Some t) by (by rewrite Hh1).
  destruct (close_cases (TIMER_FD t) w1)
    as (rc & w2 & Hc & Hh2 & Hr2 & Hk2 & Hf2 & _).
  assert (Ht2 : heap w2 !! timer = Some t) by (by rewrite Hh2).
  assert (Hreg' : ∀ fd', fd' ≠ TIMER_FD t →
            registered w1 !! fd' = registered w !! fd').
  { intros fd' Hne. destruct Hreg as [(_ & -> & _)|[_ ->]]; [|done].
    by rewrite lookup_delete_ne. }
  destruct Hreg as [(-> & Hr1 & _)|[Hr Hr1]].
  - simpl in Hrun.
    rewrite (bind_Done _ _ _ _ _ (load_Done _ _ _ Ht1)) in Hrun.
    rewrite (bind_Done _ _ _ _ _ Hc) in Hrun.
    destruct (is_negative rc).
    + inversion Hrun; subst s w'. repeat split; try done.
      * intros fd' Hne. rewrite Hf2, Hf1; done.
      * intros fd' Hne. rewrite Hr2. by apply Hreg'.
      * intros p _. by rewrite Hh2, Hh1.
      * congruence.
    + rewrite (bind_Done _ _ _ _ _ (shred_Done _ _ _ Ht2)) in Hrun.
      inversion Hrun; subst s w'. simpl. repeat split; try done.
      * intros fd' Hne. rewrite Hf2, Hf1; done.
      * intros fd' Hne. rewrite Hr2. by apply Hreg'.
      * intros p Hne. by rewrite lookup_insert_ne, Hh2, Hh1.
      * by rewrite Hh2, Hh1.
      * by rewrite Hr2.
  - assert (Hfail : is_em_failure r = true).
    { unfold is_em_failure. apply negb_true_iff. by apply bool_decide_eq_false. }
    rewrite Hfail in Hrun. munfold.
    destruct (negb (bool_decide (r = EM_ERROR_NULL))); [|done].
    destruct (negb (bool_decide (r = EM_ERROR_DESCRIPTOR_NULL))); [|done].
    rewrite Ht1 in Hrun. rewrite Hc in Hrun.
    inversion Hrun; subst s w'. simpl. repeat split; try done.
    + intros fd' Hne. rewrite Hf2, Hf1; done.
    + intros fd' Hne. rewrite Hr2. by apply Hreg'.
    + intros p _. by rewrite Hh2, Hh1.
    + congruence.
Qed.

(** [event_timer_destroy] on a created timer when the environment lets
    both calls through. *)
Lemma destroy_created_ok (timer : ptr) (t : Event_timer) (w : World) :
  created w timer t → no_fault 2 w →
  ∃ w', event_timer_destroy timer w = Done EM_SUCCESS w' ∧
    heap w' = <[timer := destroyed_timer]> (heap w) ∧
    fds w' = delete (TIMER_FD t) (fds w) ∧
    registered w' = delete (TIMER_FD t) (registered w) ∧
    errno w' = errno w ∧
    faults w' = drop 2 (faults w).
Proof.
  intros (Hn & Ht & Hem & Hcb & Hev & Hd & Hh & [tf Hk] & Hr) Hf.
  assert (Hf1 : no_fault 1 w).
  { unfold no_fault in *. destruct (faults w) as [|[e|] rest]; done. }
  destruct (event_machine_delete_cases (TIMER_EM t) (TIMER_FD t) w)
    as (r & w1 & Hdel & Hh1 & Hfd1 & Hreg & Hok).
  rewrite (Hok Hem ltac:(by eexists) Hf1) in *.
  destruct Hreg as [(_ & Hr1 & He1 & Hfa1 & _)|[? _]]; [|done].
  assert (Hk1 : kernel_timer (TIMER_FD t) w1 = Some tf).
  { unfold kernel_timer in *. by rewrite Hfd1. }
  assert (Hf2 : no_fault 1 w1).
  { unfold no_fault in *. rewrite Hfa1.
    destruct (faults w) as [|[e|] [|[e'|] rest]]; done. }
  destruct (close_open_ok _ _ _ Hk1 Hf2)
    as (w2 & Hc & Hh2 & Hr2 & Hfd2 & He2 & Hfa2).
  assert (Ht1 : heap w1 !! timer = Some t) by (by rewrite Hh1).
  assert (Ht2 : heap w2 !! timer = Some t) by (by rewrite Hh2).
  eexists. split.
  { unfold event_timer_destroy. rewrite (is_null_false _ Hn).
    rewrite (bind_Done _ _ _ _ _ (load_Done _ _ _ Ht)).
    rewrite (bind_Done _ _ _ _ _ Hdel). simpl.
    rewrite (bind_Done _ _ _ _ _ (load_Done _ _ _ Ht1)).
    rewrite (bind_Done _ _ _ _ _ Hc). simpl.
    rewrite (bind_Done _ _ _ _ _ (shred_Done _ _ _ Ht2)). reflexivity. }
  simpl. rewrite Hh2, Hh1, Hfd2, Hfd1, Hr2, Hr1, He2, He1, Hfa2, Hfa1.
  repeat split; try done. by rewrite drop_drop.
Qed.

(** ** The conversion of milliseconds *)

Lemma quot_rem_1000 (msec : Z) :
  msec = 1000 * Z.quot msec 1000 + Z.rem msec 1000 ∧
  (0 ≤ msec → 0 ≤ Z.rem msec 1000 < 1000) ∧
  (msec ≤ 0 → -1000 < Z.rem msec 1000 ≤ 0).
Proof.
  split; [apply Z.quot_rem'|]. split; intros H.
  - apply Z.rem_bound_pos_pos; lia.
  - pose proof (Z.rem_bound_pos_neg msec 1000). lia.
Qed.

Lemma expiration_time_valid (msec : Z) :
  0 ≤ msec →
  itimerspec_valid {| it_interval := expiration_time msec;
                      it_value := expiration_time msec |} = true.
Proof.
  intros H. destruct (quot_rem_1000 msec) as (Hq & Hp & _).
  specialize (Hp H). unfold itimerspec_valid, timespec_valid. simpl.
  assert (Hs : (0 <=? Z.quot msec 1000) = true) by (apply Z.leb_le; lia).
  assert (Hn : (0 <=? Z.rem msec 1000 * 1000) = true) by (apply Z.leb_le; lia).
  assert (Hb : (Z.rem msec 1000 * 1000 <? 1000000000) = true)
    by (apply Z.ltb_lt; lia).
  by rewrite Hs, Hn, Hb.
Qed.

Lemma expiration_time_invalid (msec : Z) :
  msec < 0 →
  itimerspec_valid {| it_interval := expiration_time msec;
                      it_value := expiration_time msec |} = false.
Proof.
  intros H. destruct (quot_rem_1000 msec) as (Hq & _ & Hm).
  specialize (Hm ltac:(lia)). unfold itimerspec_valid, timespec_valid. simpl.
  destruct (0 <=? Z.quot msec 1000) eqn:Hs; [|done].
  destruct (0 <=? Z.rem msec 1000 * 1000) eqn:Hn; [|done].
  apply Z.leb_le in Hs, Hn. lia.
Qed.

(** X1: for every [msec] of type [int32_t] the two fields computed by
    [event_timer_start] stay within the range of [int], so the C
    arithmetic does not overflow; the nanosecond field is a whole number of
    microseconds below one millisecond in size; the milliseconds can be
    read back from the two fields; and the kernel's validity check accepts
    the result exactly when [msec] is not negative. *)
Theorem expiration_time_int32 (msec : Z) :
  -2147483648 ≤ msec ≤ 2147483647 →
  -2147483 ≤ tv_sec (expiration_time msec) ≤ 2147483 ∧
  -999000 ≤ tv_nsec (expiration_time msec) ≤ 999000 ∧
  Z.rem (tv_nsec (expiration_time msec)) 1000 = 0 ∧
  tv_sec (expiration_time msec) * 1000
    + Z.quot (tv_nsec (expiration_time msec)) 1000 = msec ∧
  timespec_valid (expiration_time msec) = bool_decide (0 ≤ msec).
Proof.
  intros Hr. destruct (quot_rem_1000 msec) as (Hq & Hp & Hm).
  assert (Hrem : -1000 < Z.rem msec 1000 < 1000) by lia.
  split; [simpl; lia|]. split; [simpl; lia|].
  split; [simpl; apply Z.rem_mul; lia|].
  split; [simpl; rewrite Z.quot_mul by lia; lia|].
  destruct (decide (0 ≤ msec)) as [H0|H0].
  - rewrite (bool_decide_eq_true_2 _ H0).
    pose proof (expiration_time_valid msec H0) as Hv.
    unfold itimerspec_valid in Hv. by apply andb_true_iff in Hv as [Hv _].
  - rewrite (bool_decide_eq_false_2 _ H0).
    pose proof (expiration_time_invalid msec ltac:(lia)) as Hv.
    unfold itimerspec_valid in Hv. cbn [it_interval it_value] in Hv.
    destruct (timespec_valid (expiration_time msec)); simpl in Hv; done.
Qed.

Lemma expiration_time_int32_witness :
  -2147483 ≤ tv_sec (expiration_time 1500) ≤ 2147483 ∧
  -999000 ≤ tv_nsec (expiration_time 1500) ≤ 999000 ∧
  Z.rem (tv_nsec (expiration_time 1500)) 1000 = 0 ∧
  tv_sec (expiration_time 1500) * 1000
    + Z.quot (tv_nsec (expiration_time 1500)) 1000 = 1500 ∧
  timespec_valid (expiration_time 1500) = bool_decide (0 ≤ 1500).
Proof. apply (expiration_time_int32 1500). lia. Defined.

(** ** [event_timer_create] and the rest of the world *)

Lemma create_success_witness :
  ∃ fd w',
    event_timer_create 16 4096 (FN_user 1) 7 w_fresh = Done EM_SUCCESS w' ∧
    fds w_fresh !! fd = None ∧
    created w' 4096
      {| event_machine := 16;
         event_descriptor :=
           {| ed_fd := fd; ed_events := EPOLLIN; ed_data := 4096;
              ed_handler := FN_internal_timeout_handler |};
         data := 7;
         callback := FN_user 1 |} ∧
    kernel_timer fd w' = Some new_timerfd.
Proof.
  apply (create_success 16 4096 (FN_user 1) 7 stale_timer w_fresh).
  - vm_compute. discriminate.
  - vm_compute. discriminate.
  - discriminate.
  - reflexivity.
  - reflexivity.
Defined.

(** X3: whenever [event_timer_create] returns, with whatever status, no
    timer object other than [*timer] has changed and every kernel timer
    that was open is as it was.  When the status is not [EM_SUCCESS], the
    kernel's table of timers and the reactor's registrations are exactly
    what they were before the call: nothing stays allocated, nothing stays
    registered. *)
Theorem create_frame (event_machine timer : ptr) (callback : fn_ptr)
    (data : ptr) (s : em_status) (w w' : World) :
  event_timer_create event_machine timer callback data w = Done s w' →
  (∀ p, p ≠ timer → heap w' !! p = heap w !! p) ∧
  (∀ fd, is_Some (fds w !! fd) → fds w' !! fd = fds w !! fd) ∧
  (s ≠ EM_SUCCESS → fds w' = fds w ∧ registered w' = registered w).
Proof.
  intros Hrun.
  destruct (decide (event_machine = NULL ∨ timer = NULL ∨ callback = FN_NULL))
    as [Hnull|Hnn].
  - assert (Hw : w' = w).
    { unfold event_timer_create, is_null, is_null_fn in Hrun.
      destruct Hnull as [H|[H|H]];
        repeat (case_bool_decide; [by inversion Hrun|]); done. }
    subst w'. done.
  - assert (Hem : event_machine ≠ NULL) by tauto.
    assert (Hn : timer ≠ NULL) by tauto.
    assert (Hcb : callback ≠ FN_NULL) by tauto.
    destruct (heap w !! timer) as [t|] eqn:Ht.
    + destruct (create_outcome event_machine timer callback data t w
                  Hem Hn Hcb Ht) as (fd & s0 & w0 & Hfd0 & Hfree & Hc & _ & Hcases).
      rewrite Hc in Hrun. inversion Hrun; subst s0 w0.
      destruct Hcases as [(-> & _ & Hh & Hf & _)|(Hs & _ & Hf & Hr & t' & Hh)].
      * split; [|split; [|done]].
        -- intros p Hne. by rewrite Hh, lookup_insert_ne.
        -- intros fd' [x Hx]. rewrite Hf, lookup_insert_ne; [done|congruence].
      * split; [|split; [|done]].
        -- intros p Hne. by rewrite Hh, lookup_insert_ne.
        -- intros fd' _. by rewrite Hf.
    + exfalso. unfold event_timer_create in Hrun.
      rewrite (is_null_false _ Hem), (is_null_false _ Hn),
        (is_null_fn_false _ Hcb) in Hrun.
      munfold. by rewrite Ht in Hrun.
Qed.

Lemma create_frame_witness :
  let w := set_faults [Some EMFILE] w_created in
  let w' := world_after (event_timer_create 16 4096 (FN_user 1) 7 w) w in
  (∀ p, p ≠ 4096 → heap w' !! p = heap w !! p) ∧
  (∀ fd, is_Some (fds w !! fd) → fds w' !! fd = fds w !! fd) ∧
  (EM_ERROR_BADFD ≠ EM_SUCCESS →
     fds w' = fds w ∧ registered w' = registered w).
Proof.
  intros w w'.
  apply (create_frame 16 4096 (FN_user 1) 7 EM_ERROR_BADFD w w').
  vm_compute. reflexivity.
Defined.

(** X4: a successful [event_timer_create] followed by
    [event_timer_destroy], with an environment that lets the four external
    calls through, gives back what was taken: both calls return
    [EM_SUCCESS], the kernel's table of timers is what it was before the
    create, the descriptor used in between is registered no more, no other
    registration has changed, and the timer is in the destroyed state. *)
Theorem create_destroy_round_trip (event_machine timer : ptr)
    (callback : fn_ptr) (data : ptr) (t : Event_timer) (w : World) :
  event_machine ≠ NULL → timer ≠ NULL → callback ≠ FN_NULL →
  heap w !! timer = Some t →
  no_fault 4 w →
  ∃ fd w1 w2,
    event_timer_create event_machine timer callback data w
      = Done EM_SUCCESS w1 ∧
    event_timer_destroy timer w1 = Done EM_SUCCESS w2 ∧
    fds w !! fd = None ∧
    fds w2 = fds w ∧
    registered w2 = delete fd (registered w) ∧
    destroyed w2 timer ∧
    (∀ p, p ≠ timer → heap w2 !! p = heap w !! p) ∧
    errno w2 = errno w.
Proof.
  intros Hem Hn Hcb Ht Hf.
  destruct (create_outcome event_machine timer callback data t w Hem Hn Hcb Ht)
    as (fd & s & w1 & Hfd0 & Hfree & Hc & _ & Hcases).
  destruct Hcases as [(-> & _ & Hh & Hfd & Hr & Hfa & He)|(_ & Hnf & _)].
  2: { exfalso. apply Hnf. unfold no_fault in *.
       destruct (faults w) as [|[e|] [|[e'|] rest]]; done. }
  assert (Hcr : created w1 timer
                  (initialised_timer event_machine timer callback data fd)).
  { unfold created, kernel_timer, TIMER_FD, TIMER_EM, TIMER_ED, TIMER_CALLBACK.
    simpl. rewrite Hh, Hfd, Hr, !lookup_insert_eq.
    assert (Hk : (fd <? 0) = false) by (by apply Z.ltb_ge). rewrite Hk.
    repeat split; try done; by eexists. }
  assert (Hf1 : no_fault 2 w1).
  { unfold no_fault in *. rewrite Hfa.
    destruct (faults w) as [|[e|] [|[e'|] [|[e''|] [|[e'''|] rest]]]]; done. }
  destruct (destroy_created_ok _ _ _ Hcr Hf1)
    as (w2 & Hd & Hh2 & Hfd2 & Hr2 & He2 & _).
  exists fd, w1, w2. unfold TIMER_FD in *. simpl in *.
  split; [done|]. split; [done|]. split; [done|].
  split; [by rewrite Hfd2, Hfd, delete_insert_eq, delete_id|].
  split; [by rewrite Hr2, Hr, delete_insert_eq|].
  split; [split; [done | by rewrite Hh2, lookup_insert_eq]|].
  split; [|congruence].
  intros p Hne. by rewrite Hh2, Hh, !lookup_insert_ne.
Qed.

Lemma create_destroy_round_trip_witness :
  ∃ fd w1 w2,
    event_timer_create 16 4096 (FN_user 1) 7 w_fresh = Done EM_SUCCESS w1 ∧
    event_timer_destroy 4096 w1 = Done EM_SUCCESS w2 ∧
    fds w_fresh !! fd = None ∧
    fds w2 = fds w_fresh ∧
    registered w2 = delete fd (registered w_fresh) ∧
    destroyed w2 4096 ∧
    (∀ p, p ≠ 4096 → heap w2 !! p = heap w_fresh !! p) ∧
    errno w2 = errno w_fresh.
Proof.
  apply (create_destroy_round_trip 16 4096 (FN_user 1) 7 stale_timer w_fresh).
  - vm_compute. discriminate.
  - vm_compute. discriminate.
  - discriminate.
  - reflexivity.
  - reflexivity.
Defined.

(** X5: a timer that has just been created does not fire.  After a
    successful [event_timer_create] the kernel timer is not armed, and the
    handler called for its descriptor finds nothing to read and returns
    without invoking any callback, whatever the application's callbacks
    are. *)
Theorem created_timer_is_quiet (user_code : Z → option (ptr → ptr → M unit))
    (event_machine timer : ptr) (callback : fn_ptr) (data : ptr)
    (t : Event_timer) (w : World) :
  event_machine ≠ NULL → timer ≠ NULL → callback ≠ FN_NULL →
  heap w !! timer = Some t →
  no_fault 2 w →
  ∃ fd w1 w2,
    event_timer_create event_machine timer callback data w
      = Done EM_SUCCESS w1 ∧
    kernel_timer fd w1 = Some new_timerfd ∧
    tfd_setting new_timerfd = zero_itimerspec ∧
    internal_timeout_handler user_code event_machine EPOLLIN fd timer w1
      = Done tt w2 ∧
    callbacks_of (trace w2) = callbacks_of (trace w) ∧
    heap w2 = heap w1 ∧ fds w2 = fds w1 ∧ registered w2 = registered w1.
Proof.
  intros Hem Hn Hcb Ht Hf.
  destruct (create_outcome event_machine timer callback data t w Hem Hn Hcb Ht)
    as (fd & s & w1 & Hfd0 & Hfree & Hc & Htr & Hcases).
  destruct Hcases as [(-> & _ & Hh & Hfd & Hr & Hfa & He)|(_ & Hnf & _)];
    [|done].
  assert (Hk : kernel_timer fd w1 = Some new_timerfd).
  { unfold kernel_timer. rewrite Hfd, lookup_insert_eq.
    assert (Hk : (fd <? 0) = false) by (by apply Z.ltb_ge). by rewrite Hk. }
  exists fd, w1, (log (Ev_read fd (-1)) (set_errno EAGAIN w1)).
  split; [done|]. split; [done|]. split; [done|].
  split; [by apply (handler_would_block _ _ _ _ _ new_timerfd)|].
  split; [|done].
  cbn [trace log set_errno]. rewrite callbacks_of_app, Htr. simpl.
  by rewrite app_nil_r.
Qed.

Lemma created_timer_is_quiet_witness :
  ∃ fd w1 w2,
    event_timer_create 16 4096 (FN_user 1) 7 w_fresh = Done EM_SUCCESS w1 ∧
    kernel_timer fd w1 = Some new_timerfd ∧
    tfd_setting new_timerfd = zero_itimerspec ∧
    internal_timeout_handler code_destroy 16 EPOLLIN fd 4096 w1
      = Done tt w2 ∧
    callbacks_of (trace w2) = callbacks_of (trace w_fresh) ∧
    heap w2 = heap w1 ∧ fds w2 = fds w1 ∧ registered w2 = registered w1.
Proof.
  apply (created_timer_is_quiet code_destroy 16 4096 (FN_user 1) 7
           stale_timer w_fresh).
  - vm_compute. discriminate.
  - vm_compute. discriminate.
  - discriminate.
  - reflexivity.
  - reflexivity.
Defined.

(** ** More on [event_timer_start] and [event_timer_stop] *)

(** [timerfd_settime] never opens or closes a descriptor and does not use
    up a decision of the environment; when it fails the kernel timers are
    exactly as they were. *)
Lemma timerfd_settime_cases (fd flags : Z) (v : itimerspec) (w : World) :
  ∃ r w', timerfd_settime fd flags v w = Done r w' ∧
    heap w' = heap w ∧ registered w' = registered w ∧
    faults w' = faults w ∧ dom (fds w') = dom (fds w) ∧
    (∀ fd', fd' ≠ fd → fds w' !! fd' = fds w !! fd') ∧
    callbacks_of (trace w') = callbacks_of (trace w) ∧
    ((r = 0 ∧ errno w' = errno w ∧
      kernel_timer fd w' = Some {| tfd_setting := v; tfd_expirations := 0 |})
     ∨ (r = -1 ∧ fds w' = fds w)).
Proof.
  unfold timerfd_settime. munfold. simpl.
  destruct (negb (Z.land flags (Z.lnot 3) =? 0) || negb (itimerspec_valid v));
    simpl.
  - eexists _, _. split; [reflexivity|]. simpl.
    repeat split; try done; [solve_callbacks | by right].
  - destruct (kernel_timer fd w) as [tf|] eqn:Hk; simpl; eexists _, _;
      (split; [reflexivity|]); simpl.
    + unfold kernel_timer in *. simpl.
      destruct (fd <? 0); [done|].
      repeat split; try done.
      * apply dom_insert_lookup_L. by eexists.
      * intros fd' Hne. by rewrite lookup_insert_ne.
      * solve_callbacks.
      * left. by rewrite lookup_insert_eq.
    + repeat split; try done; [solve_callbacks | by right].
Qed.

(** X6: on a created timer [event_timer_start] with an interval that is
    not negative returns [EM_SUCCESS]; the kernel timer of the handle then
    has interval and first expiry [expiration_time msec] and nothing left
    to read; every other kernel timer, every timer object, the
    registrations and [errno] are as before, and the timer is still a
    created timer. *)
Theorem start_created (timer : ptr) (t : Event_timer) (msec : Z) (w : World) :
  created w timer t → 0 ≤ msec →
  ∃ w',
    event_timer_start timer msec w = Done EM_SUCCESS w' ∧
    kernel_timer (TIMER_FD t) w' =
      Some {| tfd_setting := {| it_interval := expiration_time msec;
                                it_value := expiration_time msec |};
              tfd_expirations := 0 |} ∧
    (∀ fd', fd' ≠ TIMER_FD t → fds w' !! fd' = fds w !! fd') ∧
    heap w' = heap w ∧ registered w' = registered w ∧ errno w' = errno w ∧
    created w' timer t.
Proof.
  intros (Hn & Ht & Hem & Hcb & Hev & Hd & Hh & [tf Hk] & Hr) Hm.
  pose proof (timerfd_settime_open _ _ _ _ Hk (expiration_time_valid msec Hm))
    as Hs.
  eexists. split.
  { unfold event_timer_start. rewrite (is_null_false _ Hn).
    rewrite (bind_Done _ _ _ _ _ (load_Done _ _ _ Ht)).
    rewrite (bind_Done _ _ _ _ _ Hs). reflexivity. }
  assert (Hk' : kernel_timer (TIMER_FD t)
            (log (Ev_timerfd_settime (TIMER_FD t) 0
                    {| it_interval := expiration_time msec;
                       it_value := expiration_time msec |} 0)
               (set_fds (<[TIMER_FD t :=
                             {| tfd_setting :=
                                  {| it_interval := expiration_time msec;
                                     it_value := expiration_time msec |};
                                tfd_expirations := 0 |}]> (fds w)) w))
            = Some {| tfd_setting := {| it_interval := expiration_time msec;
                                        it_value := expiration_time msec |};
                      tfd_expirations := 0 |}).
  { unfold kernel_timer in *. cbn [fds log set_fds].
    destruct (TIMER_FD t <? 0); [done|]. by rewrite lookup_insert_eq. }
  split; [exact Hk'|].
  split; [intros fd' Hne; cbn [fds log set_fds]; by rewrite lookup_insert_ne|].
  split; [done|]. split; [done|]. split; [done|].
  unfold created. repeat split; try done; try by eexists.
Qed.

Lemma start_created_witness :
  ∃ w',
    event_timer_start 4096 1500 w_created = Done EM_SUCCESS w' ∧
    kernel_timer (TIMER_FD created_timer) w' =
      Some {| tfd_setting := {| it_interval := expiration_time 1500;
                                it_value := expiration_time 1500 |};
              tfd_expirations := 0 |} ∧
    (∀ fd', fd' ≠ TIMER_FD created_timer →
       fds w' !! fd' = fds w_created !! fd') ∧
    heap w' = heap w_created ∧ registered w' = registered w_created ∧
    errno w' = errno w_created ∧
    created w' 4096 created_timer.
Proof.
  apply (start_created 4096 created_timer 1500 w_created).
  - unfold created. repeat split; done.
  - lia.
Defined.

(** X7: [event_timer_start] with a negative interval, on any timer object,
    returns [EM_ERROR_TIMERFD_SETTIME]: the kernel refuses the negative
    [timespec] with [EINVAL] before it looks at the handle.  The kernel
    timers, the timer objects and the registrations are untouched, so a
    timer that was armed stays armed as it was. *)
Theorem start_negative_rejected (timer : ptr) (t : Event_timer) (msec : Z)
    (w : World) :
  timer ≠ NULL → heap w !! timer = Some t → msec < 0 →
  event_timer_start timer msec w =
    Done EM_ERROR_TIMERFD_SETTIME
      (log (Ev_timerfd_settime (TIMER_FD t) 0
              {| it_interval := expiration_time msec;
                 it_value := expiration_time msec |} (-1))
         (set_errno EINVAL w)).
Proof.
  intros Hn Ht Hm. unfold event_timer_start. rewrite (is_null_false _ Hn).
  rewrite (bind_Done _ _ _ _ _ (load_Done _ _ _ Ht)).
  unfold timerfd_settime. munfold.
  rewrite (expiration_time_invalid msec Hm). reflexivity.
Qed.

Lemma start_negative_rejected_witness :
  event_timer_start 4096 (-1) (w_pending 3) =
    Done EM_ERROR_TIMERFD_SETTIME
      (log (Ev_timerfd_settime (TIMER_FD created_timer) 0
              {| it_interval := expiration_time (-1);
                 it_value := expiration_time (-1) |} (-1))
         (set_errno EINVAL (w_pending 3))).
Proof.
  apply (start_negative_rejected 4096 created_timer (-1) (w_pending 3)).
  - vm_compute. discriminate.
  - reflexivity.
  - lia.
Defined.

(** X8: whatever their arguments and whatever the world, when
    [event_timer_start] or [event_timer_stop] return they have opened and
    closed no kernel timer, changed no timer object and no registration,
    touched no kernel timer but the one behind the timer's handle, used up
    no decision of the environment and invoked no callback. *)
Theorem start_stop_frame (timer : ptr) (msec : Z) (s : em_status)
    (w w' : World) :
  event_timer_start timer msec w = Done s w' ∨
  event_timer_stop timer w = Done s w' →
  heap w' = heap w ∧ registered w' = registered w ∧
  faults w' = faults w ∧ dom (fds w') = dom (fds w) ∧
  callbacks_of (trace w') = callbacks_of (trace w) ∧
  (∀ t fd', heap w !! timer = Some t → fd' ≠ TIMER_FD t →
     fds w' !! fd' = fds w !! fd').
Proof.
  assert (Hgen : ∀ v,
    (if is_null timer then mret EM_ERROR_TIMER_NULL
     else t ← load timer;
          r ← timerfd_settime (TIMER_FD t) 0 v;
          if is_negative r then mret EM_ERROR_TIMERFD_SETTIME
          else mret EM_SUCCESS) w = Done s w' →
    heap w' = heap w ∧ registered w' = registered w ∧
    faults w' = faults w ∧ dom (fds w') = dom (fds w) ∧
    callbacks_of (trace w') = callbacks_of (trace w) ∧
    (∀ t fd', heap w !! timer = Some t → fd' ≠ TIMER_FD t →
       fds w' !! fd' = fds w !! fd')).
  { intros v Hrun. destruct (is_null timer).
    - inversion Hrun; subst. done.
    - unfold mbind at 1, M_bind at 1, load in Hrun.
      destruct (heap w !! timer) as [t|] eqn:Ht; [|done].
      destruct (timerfd_settime_cases (TIMER_FD t) 0 v w)
        as (r & w1 & Hs & Hh & Hr & Hfa & Hdom & Hoth & Hcb & _).
      rewrite (bind_Done _ _ _ _ _ Hs) in Hrun.
      assert (w' = w1) as ->.
      { destruct (is_negative r); by inversion Hrun. }
      repeat split; try done. intros t0 fd' [= <-] Hne. by apply Hoth. }
  intros [H|H]; [apply (Hgen _ H)|].
  apply (Hgen zero_itimerspec). exact H.
Qed.

Lemma start_stop_frame_witness :
  let w' := world_after (event_timer_start 4096 (-7) w_destroyed) w_destroyed in
  heap w' = heap w_destroyed ∧ registered w' = registered w_destroyed ∧
  faults w' = faults w_destroyed ∧ dom (fds w') = dom (fds w_destroyed) ∧
  callbacks_of (trace w') = callbacks_of (trace w_destroyed) ∧
  (∀ t fd', heap w_destroyed !! 4096 = Some t → fd' ≠ TIMER_FD t →
     fds w' !! fd' = fds w_destroyed !! fd').
Proof.
  intros w'.
  apply (start_stop_frame 4096 (-7) EM_ERROR_TIMERFD_SETTIME w_destroyed w').
  left. vm_compute. reflexivity.
Defined.

(** [event_timer_start] on a created timer with an interval that is not
    negative, as an equation. *)
Lemma start_created_run (timer : ptr) (t : Event_timer) (msec : Z) (w : World) :
  created w timer t → 0 ≤ msec →
  event_timer_start timer msec w =
    Done EM_SUCCESS
      (log (Ev_timerfd_settime (TIMER_FD t) 0
              {| it_interval := expiration_time msec;
                 it_value := expiration_time msec |} 0)
         (set_fds (<[TIMER_FD t :=
                       {| tfd_setting :=
                            {| it_interval := expiration_time msec;
                               it_value := expiration_time msec |};
                          tfd_expirations := 0 |}]> (fds w)) w)).
Proof.
  intros (Hn & Ht & Hem & Hcb & Hev & Hd & Hh & [tf Hk] & Hr) Hm.
  pose proof (timerfd_settime_open _ _ _ _ Hk (expiration_time_valid msec Hm))
    as Hs.
  unfold event_timer_start. rewrite (is_null_false _ Hn).
  rewrite (bind_Done _ _ _ _ _ (load_Done _ _ _ Ht)).
  by rewrite (bind_Done _ _ _ _ _ Hs).
Qed.

(** A new setting of its kernel timer leaves a created timer created. *)
Lemma created_after_settime (timer : ptr) (t : Event_timer) (e : event)
    (tf : timerfd) (w : World) :
  created w timer t →
  created (log e (set_fds (<[TIMER_FD t := tf]> (fds w)) w)) timer t ∧
  kernel_timer (TIMER_FD t)
    (log e (set_fds (<[TIMER_FD t := tf]> (fds w)) w)) = Some tf.
Proof.
  intros (Hn & Ht & Hem & Hcb & Hev & Hd & Hh & [tf0 Hk] & Hr).
  assert (Hk' : kernel_timer (TIMER_FD t)
                  (log e (set_fds (<[TIMER_FD t := tf]> (fds w)) w)) = Some tf).
  { unfold kernel_timer in *. cbn [fds log set_fds].
    destruct (TIMER_FD t <? 0); [done|]. by rewrite lookup_insert_eq. }
  split; [|done]. unfold created. repeat split; try done; try by eexists.
Qed.

(** X9: arming a created timer again replaces the earlier setting; no stop
    is needed in between.  After [event_timer_start] with [a] and then
    with [b], both not negative, the kernel timers, the timer objects and
    the registrations are exactly what a single [event_timer_start] with
    [b] gives. *)
Theorem restart_replaces (timer : ptr) (t : Event_timer) (a b : Z) (w : World) :
  created w timer t → 0 ≤ a → 0 ≤ b →
  ∃ w1 w2 w3,
    event_timer_start timer a w = Done EM_SUCCESS w1 ∧
    event_timer_start timer b w1 = Done EM_SUCCESS w2 ∧
    event_timer_start timer b w = Done EM_SUCCESS w3 ∧
    fds w2 = fds w3 ∧ heap w2 = heap w3 ∧ registered w2 = registered w3 ∧
    errno w2 = errno w3.
Proof.
  intros Hc Ha Hb.
  pose proof (start_created_run timer t a w Hc Ha) as H1.
  destruct (created_after_settime timer t
              (Ev_timerfd_settime (TIMER_FD t) 0
                 {| it_interval := expiration_time a;
                    it_value := expiration_time a |} 0)
              {| tfd_setting := {| it_interval := expiration_time a;
                                   it_value := expiration_time a |};
                 tfd_expirations := 0 |} w Hc) as [Hc1 _].
  pose proof (start_created_run timer t b _ Hc1 Hb) as H2.
  pose proof (start_created_run timer t b w Hc Hb) as H3.
  eexists _, _, _. split; [exact H1|]. split; [exact H2|]. split; [exact H3|].
  simpl. by rewrite insert_insert_eq.
Qed.

Lemma restart_replaces_witness :
  ∃ w1 w2 w3,
    event_timer_start 4096 50 w_created = Done EM_SUCCESS w1 ∧
    event_timer_start 4096 2500 w1 = Done EM_SUCCESS w2 ∧
    event_timer_start 4096 2500 w_created = Done EM_SUCCESS w3 ∧
    fds w2 = fds w3 ∧ heap w2 = heap w3 ∧ registered w2 = registered w3 ∧
    errno w2 = errno w3.
Proof.
  apply (restart_replaces 4096 created_timer 50 2500 w_created).
  - unfold created. repeat split; done.
  - lia.
  - lia.
Defined.

(** X10: [event_timer_stop] discards the expirations that were waiting to
    be read.  On a created timer, with however many expirations pending, a
    stop followed by the handler for the timer's descriptor invokes no
    callback: the handler finds nothing to read and returns. *)
Theorem stop_then_handler_quiet
    (user_code : Z → option (ptr → ptr → M unit)) (timer : ptr)
    (t : Event_timer) (w : World) :
  created w timer t →
  ∃ w1 w2,
    event_timer_stop timer w = Done EM_SUCCESS w1 ∧
    internal_timeout_handler user_code (TIMER_EM t) (ed_events (TIMER_ED t))
      (TIMER_FD t) (ed_data (TIMER_ED t)) w1 = Done tt w2 ∧
    callbacks_of (trace w2) = callbacks_of (trace w) ∧
    heap w2 = heap w ∧ registered w2 = registered w.
Proof.
  intros Hc.
  pose proof (start_created_run timer t 0 w Hc ltac:(lia)) as H1.
  change (event_timer_start timer 0 w) with (event_timer_stop timer w) in H1.
  destruct (created_after_settime timer t
              (Ev_timerfd_settime (TIMER_FD t) 0
                 {| it_interval := expiration_time 0;
                    it_value := expiration_time 0 |} 0)
              {| tfd_setting := {| it_interval := expiration_time 0;
                                   it_value := expiration_time 0 |};
                 tfd_expirations := 0 |} w Hc) as [_ Hk].
  destruct Hc as (_ & _ & Hem & _).
  eexists _, _. split; [exact H1|].
  split; [apply (handler_would_block _ _ _ _ _ _ _ Hem Hk); simpl; lia|].
  cbn [trace log set_errno set_fds heap registered].
  split; [|done]. rewrite !callbacks_of_app. simpl. by rewrite !app_nil_r.
Qed.

Lemma stop_then_handler_quiet_witness :
  ∃ w1 w2,
    event_timer_stop 4096 (w_pending 3) = Done EM_SUCCESS w1 ∧
    internal_timeout_handler code_destroy (TIMER_EM created_timer)
      (ed_events (TIMER_ED created_timer)) (TIMER_FD created_timer)
      (ed_data (TIMER_ED created_timer)) w1 = Done tt w2 ∧
    callbacks_of (trace w2) = callbacks_of (trace (w_pending 3)) ∧
    heap w2 = heap (w_pending 3) ∧ registered w2 = registered (w_pending 3).
Proof.
  apply (stop_then_handler_quiet code_destroy 4096 created_timer (w_pending 3)).
  unfold created. repeat split; done.
Defined.

Lemma destroy_outcome_witness :
  let w := set_faults [Some 12; Some 4] w_created in
  let w' := world_after (event_timer_destroy 4096 w) w in
  kernel_timer (TIMER_FD created_timer) w' = None ∧
  (∀ fd', fd' ≠ TIMER_FD created_timer → fds w' !! fd' = fds w !! fd') ∧
  (∀ fd', fd' ≠ TIMER_FD created_timer →
     registered w' !! fd' = registered w !! fd') ∧
  (∀ p, p ≠ 4096 → heap w' !! p = heap w !! p) ∧
  (EM_ERROR_UNREGISTER = EM_SUCCESS →
     heap w' = <[4096 := destroyed_timer]> (heap w) ∧
     registered w' = delete (TIMER_FD created_timer) (registered w)) ∧
  (EM_ERROR_UNREGISTER ≠ EM_SUCCESS → heap w' = heap w).
Proof.
  intros w w'.
  apply (destroy_outcome 4096 created_timer EM_ERROR_UNREGISTER w w').
  - vm_compute. discriminate.
  - reflexivity.
  - vm_compute. reflexivity.
Defined.

(** ** More on the expiration handler *)

(** X12: the assertions of the handler.  Called with a null reactor or a
    negative handle it stops in an assertion before it reads anything; the
    world is untouched.  Called with a handle that is not an open kernel
    timer it stops in the assertion after the failed [read].  In neither
    case is a callback invoked or a timer object changed. *)
Theorem handler_aborts (user_code : Z → option (ptr → ptr → M unit))
    (em : ptr) (events fd : Z) (data : ptr) (w : World) :
  em = NULL ∨ fd < 0 ∨ kernel_timer fd w = None →
  ∃ w', internal_timeout_handler user_code em events fd data w = Abort w' ∧
        (em = NULL ∨ fd < 0 → w' = w) ∧
        callbacks_of (trace w') = callbacks_of (trace w) ∧
        heap w' = heap w ∧ fds w' = fds w ∧ registered w' = registered w.
Proof.
  intros H. unfold internal_timeout_handler, read_uint64, is_null, valid_fd.
  munfold.
  destruct (decide (em = NULL)) as [Hem|Hem].
  { rewrite (bool_decide_eq_true_2 _ Hem). simpl. exists w. done. }
  rewrite (bool_decide_eq_false_2 _ Hem). simpl.
  destruct (0 <=? fd) eqn:Hfd.
  2: { exists w. done. }
  apply Z.leb_le in Hfd.
  destruct H as [?|[?|Hk]]; [done | lia |].
  rewrite Hk. simpl. eexists. split; [reflexivity|].
  split; [intros [?|?]; [done | lia]|].
  simpl. split; [solve_callbacks | done].
Qed.

Lemma handler_aborts_witness :
  ∃ w', internal_timeout_handler code_restart 16 EPOLLIN 0 4096 w_destroyed
          = Abort w' ∧
        (16 = NULL ∨ 0 < 0 → w' = w_destroyed) ∧
        callbacks_of (trace w') = callbacks_of (trace w_destroyed) ∧
        heap w' = heap w_destroyed ∧ fds w' = fds w_destroyed ∧
        registered w' = registered w_destroyed.
Proof.
  apply (handler_aborts code_restart 16 EPOLLIN 0 4096 w_destroyed).
  right. right. reflexivity.
Defined.

(** ** Calls that always return *)

(** X14: with arguments that are not null and a timer object that is
    there, [event_timer_create] always returns: neither of its assertions
    fails, whatever the environment does, and the status is one of
    [EM_SUCCESS], [EM_ERROR_BADFD] and the reactor's registration failure. *)
Theorem create_returns (event_machine timer : ptr) (callback : fn_ptr)
    (data : ptr) (t : Event_timer) (w : World) :
  event_machine ≠ NULL → timer ≠ NULL → callback ≠ FN_NULL →
  heap w !! timer = Some t →
  ∃ s w',
    event_timer_create event_machine timer callback data w = Done s w' ∧
    (s = EM_SUCCESS ∨ s = EM_ERROR_BADFD ∨ s = EM_ERROR_REGISTER) ∧
    (s = EM_SUCCESS ↔ no_fault 2 w) ∧
    (s = EM_ERROR_BADFD ↔ ∃ e rest, faults w = Some e :: rest).
Proof.
  intros Hem Hn Hcb Ht.
  destruct (lowest_free_total (fds w)) as [fd Hfd].
  destruct (lowest_free_Some _ _ _ _ Hfd) as [Hfd0 Hfree].
  assert (Hv : is_invalid_fd fd = false).
  { unfold is_invalid_fd, valid_fd. apply negb_false_iff. by apply Z.leb_le. }
  assert (Hk : (fd <? 0) = false) by (by apply Z.ltb_ge).
  unfold event_timer_create.
  rewrite (is_null_false _ Hem), (is_null_false _ Hn), (is_null_fn_false _ Hcb).
  unfold timerfd_create, event_machine_add, close, shred, memset_zero,
    kernel_timer, no_fault.
  munfold. rewrite Ht.
  do 3 (simpl; rewrite ?lookup_insert_eq).
  destruct (faults w) as [|[e|] [|[e'|] rest]] eqn:Hfw.
  1,5,7: (simpl; rewrite ?Hfw; simpl; rewrite Hfd; simpl; rewrite Hv;
    do 5 (simpl; rewrite ?lookup_insert_eq, ?Hfw);
    (destruct (decide (event_machine = NULL)) as [?|_]; [done|]);
    do 2 (simpl; rewrite ?lookup_insert_eq, ?Hfw);
    eexists _, _; (split; [reflexivity|]); (split; [by left|]);
    split; [done | split; [done | by intros (? & ? & ?)]]).
  1,2,3: (simpl; rewrite ?Hfw; simpl;
    eexists _, _; (split; [reflexivity|]); (split; [right; by left|]);
    split; [split; done | split; [by eexists _, _ | done]]).
  simpl; rewrite ?Hfw; simpl; rewrite Hfd; simpl; rewrite Hv.
  do 5 (simpl; rewrite ?lookup_insert_eq, ?Hfw).
  destruct (decide (event_machine = NULL)) as [?|_]; [done|].
  do 2 (simpl; rewrite ?lookup_insert_eq, ?Hfw).
  rewrite Hk.
  do 2 (simpl; rewrite ?lookup_insert_eq).
  destruct rest as [|[e''|] rest'];
    do 4 (simpl; rewrite ?lookup_insert_eq);
    eexists _, _; (split; [reflexivity|]); (split; [right; by right|]);
    (split; [split; done | split; [done | by intros (? & ? & ?)]]).
Qed.

Lemma create_returns_witness :
  ∃ s w',
    event_timer_create 16 4096 (FN_user 1) 7
      (set_faults [None; Some 12] w_fresh) = Done s w' ∧
    (s = EM_SUCCESS ∨ s = EM_ERROR_BADFD ∨ s = EM_ERROR_REGISTER) ∧
    (s = EM_SUCCESS ↔ no_fault 2 (set_faults [None; Some 12] w_fresh)) ∧
    (s = EM_ERROR_BADFD ↔
       ∃ e rest, faults (set_faults [None; Some 12] w_fresh) = Some e :: rest).
Proof.
  apply (create_returns 16 4096 (FN_user 1) 7 stale_timer
           (set_faults [None; Some 12] w_fresh)).
  - vm_compute. discriminate.
  - vm_compute. discriminate.
  - discriminate.
  - reflexivity.
Defined.

(** X15: on a created timer [event_timer_start], [event_timer_stop] and
    [event_timer_destroy] always return, whatever the interval and
    whatever the environment does: the assertions of
    [event_timer_destroy] hold.  [event_timer_stop] always succeeds,
    [event_timer_start] fails only with [EM_ERROR_TIMERFD_SETTIME] and
    only for a negative interval, and [event_timer_destroy] returns
    [EM_SUCCESS], the reactor's removal failure or [EM_ERROR_CLOSE]. *)
Theorem created_calls_return (timer : ptr) (t : Event_timer) (msec : Z)
    (w : World) :
  created w timer t →
  (∃ w', event_timer_start timer msec w =
           Done (if decide (0 ≤ msec) then EM_SUCCESS
                 else EM_ERROR_TIMERFD_SETTIME) w') ∧
  (∃ w', event_timer_stop timer w = Done EM_SUCCESS w') ∧
  (∃ s w', event_timer_destroy timer w = Done s w' ∧
           (s = EM_SUCCESS ∨ s = EM_ERROR_UNREGISTER ∨ s = EM_ERROR_CLOSE)).
Proof.
  intros Hc. split; [|split].
  - destruct (decide (0 ≤ msec)) as [Hm|Hm].
    + eexists. by apply start_created_run.
    + destruct Hc as (Hn & Ht & _). eexists.
      unfold event_timer_start. rewrite (is_null_false _ Hn).
      rewrite (bind_Done _ _ _ _ _ (load_Done _ _ _ Ht)).
      unfold timerfd_settime. munfold.
      rewrite (expiration_time_invalid msec ltac:(lia)). reflexivity.
  - eexists.
    change (event_timer_stop timer w) with (event_timer_start timer 0 w).
    apply start_created_run; [done | lia].
  - destruct Hc as (Hn & Ht & Hem & _).
    destruct (event_machine_delete_spec (TIMER_EM t) (TIMER_FD t) w)
      as (r & w1 & Hd & Hh1 & _ & _ & Hst & _).
    destruct (close_spec (TIMER_FD t) w1) as (rc & w2 & Hcl & Hh2 & _).
    assert (Ht1 : heap w1 !! timer = Some t) by (by rewrite Hh1).
    assert (Ht2 : heap w2 !! timer = Some t) by (by rewrite Hh2).
    unfold event_timer_destroy. rewrite (is_null_false _ Hn).
    rewrite (bind_Done _ _ _ _ _ (load_Done _ _ _ Ht)).
    rewrite (bind_Done _ _ _ _ _ Hd).
    destruct (Hst Hem) as [-> | ->]; simpl.
    + rewrite (bind_Done _ _ _ _ _ (load_Done _ _ _ Ht1)).
      rewrite (bind_Done _ _ _ _ _ Hcl).
      destruct (is_negative rc).
      * eexists _, _. split; [reflexivity|]. auto.
      * rewrite (bind_Done _ _ _ _ _ (shred_Done _ _ _ Ht2)).
        eexists _, _. split; [reflexivity|]. auto.
    + munfold. rewrite Ht1. rewrite Hcl.
      eexists _, _. split; [reflexivity|]. auto.
Qed.

Lemma created_calls_return_witness :
  (∃ w', event_timer_start 4096 (-5) (set_faults [Some 12] w_created) =
           Done (if decide (0 ≤ -5) then EM_SUCCESS
                 else EM_ERROR_TIMERFD_SETTIME) w') ∧
  (∃ w', event_timer_stop 4096 (set_faults [Some 12] w_created)
           = Done EM_SUCCESS w') ∧
  (∃ s w', event_timer_destroy 4096 (set_faults [Some 12] w_created)
             = Done s w' ∧
           (s = EM_SUCCESS ∨ s = EM_ERROR_UNREGISTER ∨ s = EM_ERROR_CLOSE)).
Proof.
  apply (created_calls_return 4096 created_timer (-5)
           (set_faults [Some 12] w_created)).
  unfold created. repeat split; done.
Defined.

(** X16: [event_timer_create] does not look at what the timer object held.
    Called for a timer that is already created, and successful again, it
    overwrites the object with a new descriptor while the kernel timer of
    the old handle stays open and stays registered with the old reactor:
    nothing in the object refers to it any more. *)
Theorem create_over_created_leaks (event_machine timer : ptr)
    (callback : fn_ptr) (data : ptr) (t : Event_timer) (w : World) :
  created w timer t →
  event_machine ≠ NULL → callback ≠ FN_NULL →
  no_fault 2 w →
  ∃ fd w',
    event_timer_create event_machine timer callback data w
      = Done EM_SUCCESS w' ∧
    fd ≠ TIMER_FD t ∧
    heap w' !! timer =
      Some (initialised_timer event_machine timer callback data fd) ∧
    kernel_timer (TIMER_FD t) w' = kernel_timer (TIMER_FD t) w ∧
    is_Some (kernel_timer (TIMER_FD t) w') ∧
    registered w' !! TIMER_FD t = Some (TIMER_EM t, ED_of timer).
Proof.
  intros (Hn & Ht & Hem0 & Hcb0 & Hev & Hd & Hh & [tf Hk] & Hr) Hem Hcb Hf.
  destruct (create_outcome event_machine timer callback data t w Hem Hn Hcb Ht)
    as (fd & s & w' & Hfd0 & Hfree & Hc & _ & Hcases).
  destruct Hcases as [(-> & _ & Hhp & Hfd & Hreg & _)|(_ & Hnf & _)]; [|done].
  assert (Hne : fd ≠ TIMER_FD t).
  { intros ->. unfold kernel_timer in Hk.
    destruct (TIMER_FD t <? 0); [done|]. by rewrite Hfree in Hk. }
  exists fd, w'. split; [done|]. split; [done|].
  split; [by rewrite Hhp, lookup_insert_eq|].
  assert (Hk' : kernel_timer (TIMER_FD t) w' = kernel_timer (TIMER_FD t) w).
  { unfold kernel_timer. by rewrite Hfd, lookup_insert_ne. }
  split; [done|]. split; [rewrite Hk', Hk; by eexists|].
  by rewrite Hreg, lookup_insert_ne.
Qed.

Lemma create_over_created_leaks_witness :
  ∃ fd w',
    event_timer_create 32 4096 (FN_user 2) 8 w_created = Done EM_SUCCESS w' ∧
    fd ≠ TIMER_FD created_timer ∧
    heap w' !! 4096 = Some (initialised_timer 32 4096 (FN_user 2) 8 fd) ∧
    kernel_timer (TIMER_FD created_timer) w'
      = kernel_timer (TIMER_FD created_timer) w_created ∧
    is_Some (kernel_timer (TIMER_FD created_timer) w') ∧
    registered w' !! TIMER_FD created_timer
      = Some (TIMER_EM created_timer, ED_of 4096).
Proof.
  apply (create_over_created_leaks 32 4096 (FN_user 2) 8 created_timer
           w_created).
  - unfold created. repeat split; done.
  - vm_compute. discriminate.
  - discriminate.
  - reflexivity.
Defined.
